(** * Wheelman: a shallow embedding of [wheelman.py]

    The script is a straight-line module body: load a YAML configuration,
    clean the output folder, copy the include files, build every target of
    the selected target group and finally decide whether to upload to PyPI.
    Every step either falls through, raises a Python exception or calls
    [exit] with an attribute of the class [ExitCodes].

    The embedding is a state-and-exit monad over
    - the outside world (file system, subprocesses, importable modules),
      reached only through the record [Externals];
    - the chronological trace of the observable actions of the script;
    - the one module-level name whose binding depends on the path taken,
      [py_exe].

    The embedding starts where the parsed arguments are used (the line that
    prints the configuration file name): [args.target] and
    [args.config_file] are the two strings handed to [wheelman]. The
    statements before that line are embedded on their own, as [prelude]:
    the banner, which flushes [sys.stdout] before [sys] is imported, the
    imports, and the argument parser, whose result is read from the name
    [args] that nothing binds.

    The file is read as Python 3.14 and later read it; an earlier Python 3
    rejects the whole file at the clause [except yaml.YAMLError, exc:].
    From 3.14 on the clause names the pair of classes
    [(yaml.YAMLError, exc)] and binds nothing. *)

From Stdlib Require Import ZArith Ascii.
From stdpp Require Import base strings list gmap fin_maps.

Local Open Scope Z_scope.
Local Open Scope string_scope.
Local Open Scope list_scope.

(** ** Python values

    The values a YAML document loads to, as far as the script inspects
    them: null, booleans, integers, strings, sequences and mappings. A
    mapping keeps its entries in document order, as a Python [dict] does. *)

#[warnings="-register-all"]
Inductive value : Type :=
| VNone
| VBool (b : bool)
| VInt (n : Z)
| VStr (s : string)
| VList (xs : list value)
| VDict (kvs : list (value * value)).

(** Truth value of an object in a condition. *)
Definition truthy (v : value) : bool :=
  match v with
  | VNone => false
  | VBool b => b
  | VInt n => negb (Z.eqb n 0)
  | VStr s => negb (String.eqb s "")
  | VList xs => match xs with [] => false | _ => true end
  | VDict kvs => match kvs with [] => false | _ => true end
  end.

(** Lookup of a string key in a mapping: a key that is not a string never
    equals a string. *)
Fixpoint dict_get (k : string) (kvs : list (value * value)) : option value :=
  match kvs with
  | [] => None
  | (VStr k', v) :: rest => if String.eqb k k' then Some v else dict_get k rest
  | _ :: rest => dict_get k rest
  end.

(** The one-character strings of a string, what iterating a [str] yields. *)
Fixpoint chars (s : string) : list value :=
  match s with
  | EmptyString => []
  | String c rest => VStr (String c EmptyString) :: chars rest
  end.

(** A string built with [%]: the format and the values substituted for its
    [%s] fields. The rendering of a value ([str]) is left to the reader of
    the trace. *)
Inductive text : Type :=
| Lit (s : string)
| Fmt (fmt : string) (args : list value).

(** ** Exceptions and exit codes *)

Inductive exn : Type :=
| NameError (name : string)
| AttributeError (attr : string)
| KeyError (key : string)
| TypeError
| OSError
| ImportError
| YAMLError (problem_mark : option (Z * Z)).

(** The attributes of [class ExitCodes]. *)
Definition ExitCodes : gmap string Z :=
  list_to_map
    [ ("SUCCESS", 0); ("UNSPECIFIED", 1);
      ("MISSING_DEPENDENCIES", 10); ("CONFIG_FILE_NOT_FOUND", 11);
      ("CONFIG_YAML_PARSING_ERROR", 12);
      ("BUILD_FAILED_WHEEL", 20); ("BUILD_FAILED_SOURCE_DIST", 21);
      ("PIP_FAILURE", 30);
      ("PYPI_FAILURE", 50); ("PYPI_MISSING_ENVIRONMENT_VARS", 51);
      ("PYPI_MISSING_CONFIG_VARS", 52) ].

(** ** The outside world *)

Inductive yaml_result : Type :=
| YamlValue (v : value)
| YamlError (problem_mark : option (Z * Z))
| YamlRaises (e : exn)
| YamlExits (code : Z).

(** Everything the script asks of its environment. [None] is a call that
    raises: [OSError] for the file system and for a subprocess that cannot
    be started, [ImportError] for the import of twine. A [problem_mark] is
    the zero-based [(line, column)] of a marked YAML error, which the
    loader always sets on the marked errors it raises; an error class
    without that attribute gives [None]. [yaml.Loader] builds arbitrary
    Python objects, so that loading may also raise an exception that is no
    [YAMLError] ([YamlRaises]) or end the process ([YamlExits], a
    [SystemExit] with that status). *)
Record Externals (W : Type) : Type := {
  ext_open_read : string -> W -> option string * W;
  ext_yaml_load : string -> yaml_result;
  ext_rmtree : text -> W -> option unit * W;
  ext_copyfile : value -> text -> W -> option unit * W;
  ext_run : list string -> W -> option Z * W;
  ext_twine_file : W -> option string;
  ext_environ : gmap string string;
  ext_executable : string
}.

Arguments ext_open_read {W}.
Arguments ext_yaml_load {W}.
Arguments ext_rmtree {W}.
Arguments ext_copyfile {W}.
Arguments ext_run {W}.
Arguments ext_twine_file {W}.
Arguments ext_environ {W}.
Arguments ext_executable {W}.

Inductive event : Type :=
| EPrint (t : text)
| EFlush
| EOpen (path : string)
| ERmtree (path : text)
| ECopyfile (src : value) (dst : text)
| ERun (cmd : list string)
| EImportTwine.

Record state (W : Type) : Type := State {
  world : W;
  trace : list event;
  py_exe : option value
}.

Arguments State {W}.
Arguments world {W}.
Arguments trace {W}.
Arguments py_exe {W}.

(** ** The monad: state, exceptions and [exit] *)

Inductive result (A : Type) : Type :=
| Ok (a : A)
| Raise (e : exn)
| Exit (code : Z).

Arguments Ok {A}.
Arguments Raise {A}.
Arguments Exit {A}.

Definition M (W A : Type) : Type := state W -> result A * state W.

Definition ret {W A} (a : A) : M W A := fun s => (Ok a, s).

Definition bind {W A B} (m : M W A) (k : A -> M W B) : M W B :=
  fun s =>
    match m s with
    | (Ok a, s') => k a s'
    | (Raise e, s') => (Raise e, s')
    | (Exit c, s') => (Exit c, s')
    end.

Declare Scope py_scope.
Delimit Scope py_scope with py.
Notation "x <- m ;; k" := (bind m (fun x => k))
  (at level 100, m at next level, right associativity) : py_scope.
Notation "m ;; k" := (bind m (fun _ => k))
  (at level 100, right associativity) : py_scope.
Local Open Scope py_scope.

Definition raise {W A} (e : exn) : M W A := fun s => (Raise e, s).

(** [exit(ExitCodes.<name>)]: the attribute is looked up first. *)
Definition exit_with {W A} (name : string) : M W A :=
  match ExitCodes !! name with
  | Some c => fun s => (Exit c, s)
  | None => raise (AttributeError name)
  end.

(** [try: body except ...: handler]; a handler that does not match raises
    the exception again. [exit] is not an [Exception] and passes through. *)
Definition try_except {W A} (body : M W A) (handler : exn -> M W A) : M W A :=
  fun s =>
    match body s with
    | (Raise e, s') => handler e s'
    | r => r
    end.

Definition emit {W} (e : event) : M W unit :=
  fun s => (Ok tt, State (world s) (trace s ++ [e]) (py_exe s)).

Definition print {W} (t : text) : M W unit := emit (EPrint t).
Definition flush {W} : M W unit := emit EFlush.

(** [for x in xs: body x] *)
Fixpoint for_each {W A} (xs : list A) (body : A -> M W unit) : M W unit :=
  match xs with
  | [] => ret tt
  | x :: rest => body x ;; for_each rest body
  end.

(** A result that is not [Ok] ends the script. *)
Definition halted {A} (r : result A) : Prop :=
  match r with
  | Ok _ => False
  | _ => True
  end.

Fixpoint stars (n : nat) : string :=
  match n with
  | O => ""
  | S n' => String "*"%char (stars n')
  end.

(** ['\n\n' + '*'*80] *)
Definition banner : text :=
  Lit (String "010"%char (String "010"%char (stars 80))).

(** ** Primitive operations of the script *)

Section Script.
Context {W : Type} (ext : Externals W).

Local Abbreviation Py := (M W).

(** [v[k]] for a string [k]: only a [dict] can be indexed by a string. *)
Definition subscript (v : value) (k : string) : Py value :=
  match v with
  | VDict kvs =>
      match dict_get k kvs with
      | Some x => ret x
      | None => raise (KeyError k)
      end
  | _ => raise TypeError
  end.

(** [v.get(k, default)]: only a [dict] has the method. *)
Definition get_method (v : value) (k : string) (dflt : value) : Py value :=
  match v with
  | VDict kvs => ret (default dflt (dict_get k kvs))
  | _ => raise (AttributeError "get")
  end.

(** The elements a [for] loop visits. *)
Definition iterate (v : value) : Py (list value) :=
  match v with
  | VList xs => ret xs
  | VStr s => ret (chars s)
  | VDict kvs => ret (kvs.*1)
  | _ => raise TypeError
  end.

Definition open_read (path : string) : Py string :=
  emit (EOpen path) ;;
  fun s =>
    match ext_open_read ext path (world s) with
    | (Some content, w) => (Ok content, State w (trace s) (py_exe s))
    | (None, w) => (Raise OSError, State w (trace s) (py_exe s))
    end.

Definition yaml_load (content : string) : Py value :=
  match ext_yaml_load ext content with
  | YamlValue v => ret v
  | YamlError mark => raise (YAMLError mark)
  | YamlRaises e => raise e
  | YamlExits code => fun s => (Exit code, s)
  end.

Definition rmtree (path : text) : Py unit :=
  emit (ERmtree path) ;;
  fun s =>
    match ext_rmtree ext path (world s) with
    | (Some _, w) => (Ok tt, State w (trace s) (py_exe s))
    | (None, w) => (Raise OSError, State w (trace s) (py_exe s))
    end.

Definition copyfile (src : value) (dst : text) : Py unit :=
  emit (ECopyfile src dst) ;;
  fun s =>
    match ext_copyfile ext src dst (world s) with
    | (Some _, w) => (Ok tt, State w (trace s) (py_exe s))
    | (None, w) => (Raise OSError, State w (trace s) (py_exe s))
    end.

(** The command line of a subprocess has to consist of strings. *)
Fixpoint command (args : list value) : option (list string) :=
  match args with
  | [] => Some []
  | VStr a :: rest => (a ::.) <$> command rest
  | _ :: _ => None
  end.

(** [run(args).returncode] *)
Definition run (args : list value) : Py Z :=
  match command args with
  | None => raise TypeError
  | Some cmd =>
      emit (ERun cmd) ;;
      fun s =>
        match ext_run ext cmd (world s) with
        | (Some rc, w) => (Ok rc, State w (trace s) (py_exe s))
        | (None, w) => (Raise OSError, State w (trace s) (py_exe s))
        end
  end.

(** [from twine.__main__ import __file__ as twine_py] *)
Definition import_twine : Py string :=
  emit EImportTwine ;;
  fun s =>
    match ext_twine_file ext (world s) with
    | Some file => (Ok file, s)
    | None => (Raise ImportError, s)
    end.

(** Assignment to, and use of, the module-level name [py_exe]. *)
Definition set_py_exe (v : value) : Py unit :=
  fun s => (Ok tt, State (world s) (trace s) (Some v)).

Definition get_py_exe : Py value :=
  fun s =>
    match py_exe s with
    | Some v => (Ok v, s)
    | None => (Raise (NameError "py_exe"), s)
    end.

(** [if cond: body], nothing otherwise. *)
Definition when (cond : bool) (body : Py unit) : Py unit :=
  if cond then body else ret tt.

(** ** Configuration Loader *)

(** The use of a name that nothing binds. *)
Definition unbound {A} (name : string) : Py A := raise (NameError name).

(** [isinstance(raised, (yaml.YAMLError, exc))], where [exc] would have to
    be an exception class. *)
Definition is_yaml_error (e : exn) : bool :=
  match e with
  | YAMLError _ => true
  | _ => false
  end.

Definition same_class (e cls : exn) : bool :=
  match e, cls with
  | NameError _, NameError _ | AttributeError _, AttributeError _
  | KeyError _, KeyError _ | TypeError, TypeError | OSError, OSError
  | ImportError, ImportError | YAMLError _, YAMLError _ => true
  | _, _ => false
  end.

(** [hasattr(exc, 'problem_mark')] and the attribute. *)
Definition problem_mark_of (e : exn) : option (Z * Z) :=
  match e with
  | YAMLError problem_mark => problem_mark
  | _ => None
  end.

(** The [try] around the loading has the clauses
    [except yaml.YAMLError, exc:] and [except Exception:]. When an
    exception reaches the first clause its classes are evaluated, and
    [exc] is a name that nothing binds: the lookup raises before either
    handler is chosen. *)
Definition load_config (config_file : string) : Py value :=
  print (Fmt "* Loading config file from %s" [VStr config_file]) ;;
  try_except
    (content <- open_read config_file ;;
     yaml_load content)
    (fun raised =>
       exc <- unbound "exc" ;;
       if is_yaml_error raised || same_class raised exc
       then
         print (Lit "* ERROR: Config YAML parsing failure.") ;;
         match problem_mark_of exc with
         | Some (line, column) =>
             print (Fmt "* At position: (%s:%s)"
                        [VInt (line + 1); VInt (column + 1)])
         | None => ret tt
         end ;;
         exit_with "CONFIG_YAML_PARSING_ERROR"
       else
         print (Lit "* ERROR: Couldn't load config file.") ;;
         exit_with "CONFIG_FILE_NOT_FOUND").

(** ** Environment Prep *)

Definition clean_dist : Py unit :=
  print banner ;;
  print (Lit "* Prepping environment.") ;;
  try_except
    (print (Lit "* Deleting potential leftover dist folder.") ;;
     rmtree (Lit "dist"))
    (fun _ => ret tt).

Definition copy_include_files (config : value) : Py unit :=
  include_files <- subscript config "include_files" ;;
  names <- iterate include_files ;;
  for_each names (fun name =>
    pkg <- subscript config "name" ;;
    print (Fmt "* Copying file %s into folder %s" [name; pkg]) ;;
    pkg <- subscript config "name" ;;
    copyfile name (Fmt "%s/%s" [pkg; name])).

(** ** Target Builder *)

(** The best-effort removal of [<name>.egg-info]; the lookup of
    [config['name']] sits inside the [try] as well. *)
Definition clean_egg_info (config : value) : Py unit :=
  try_except
    (pkg <- subscript config "name" ;;
     rmtree (Fmt "%s.egg-info" [pkg]))
    (fun _ => ret tt).

(** [run([py_exe, '-m', 'pip', 'install', 'wheel'])] and its check. *)
Definition install_wheel_helper (py : value) : Py unit :=
  rc <- run [py; VStr "-m"; VStr "pip"; VStr "install"; VStr "wheel"] ;;
  when (negb (Z.eqb rc 0)) (exit_with "PIP_FAILURE").

Definition build_sdist (target py : value) : Py unit :=
  sdist <- get_method target "sdist" (VBool false) ;;
  when (truthy sdist)
    (print (Lit "* Doing a source distribution!") ;;
     flush ;;
     rc <- run [py; VStr "setup.py"; VStr "sdist"] ;;
     when (negb (Z.eqb rc 0))
       (print (Fmt "Failed to build source dist for %s" [py]) ;;
        exit_with "BUILD_FAILED_SOURCE_DIST")).

Definition build_wheel (target py : value) : Py unit :=
  wheel <- get_method target "wheel" (VBool false) ;;
  when (truthy wheel)
    (print (Lit "* Doing a wheel!") ;;
     flush ;;
     rc <- run [py; VStr "setup.py"; VStr "bdist_wheel"] ;;
     when (negb (Z.eqb rc 0))
       (print (Fmt "Failed to build wheel for %s" [py]) ;;
        exit_with "BUILD_FAILED_WHEEL")).

(** One target once its metadata folder is out of the way: from
    [py_exe = target['python']] to the end of the loop body. *)
Definition build_steps (target : value) : Py unit :=
  py <- subscript target "python" ;;
  set_py_exe py ;;
  print banner ;;
  print (Fmt "* Preparing environment for %s now." [py]) ;;
  flush ;;
  install_wheel_helper py ;;
  print banner ;;
  print (Fmt "* Building for %s now." [py]) ;;
  flush ;;
  build_sdist target py ;;
  build_wheel target py.

(** The body of the loop over the targets. *)
Definition build_target (config target : value) : Py unit :=
  print banner ;;
  print (Lit "* Cleaning up egg-info.") ;;
  flush ;;
  clean_egg_info config ;;
  build_steps target.

(** [config['targets'].get(args.target, ())]; the empty tuple is the empty
    sequence. *)
Definition selected_targets (config : value) (selector : string) : Py (list value) :=
  targets <- subscript config "targets" ;;
  group <- get_method targets selector (VList []) ;;
  iterate group.

Definition build_targets (config : value) (selector : string) : Py unit :=
  group <- selected_targets config selector ;;
  for_each group (build_target config).

(** ** Publisher *)

(** [os.environ.get('APPVEYOR_REPO_TAG', 'false') == 'true'] *)
Definition is_tag : bool :=
  String.eqb (default "false" (ext_environ ext !! "APPVEYOR_REPO_TAG")) "true".

(** [run([py_exe, '-m', 'pip', 'install', 'twine'])] and its check; the
    name [py_exe] is whatever the loop over the targets left behind. *)
Definition install_twine : Py unit :=
  py <- get_py_exe ;;
  rc <- run [py; VStr "-m"; VStr "pip"; VStr "install"; VStr "twine"] ;;
  when (negb (Z.eqb rc 0))
    (print (Lit "* ERROR: Failed to ensure that twine is installed.") ;;
     exit_with "PIP_FAILURE").

(** The upload itself, from the import of twine on. *)
Definition upload (pypi_url pypi_username : value) : Py unit :=
  twine_py <-
    try_except import_twine
      (fun exc =>
         match exc with
         | ImportError =>
             print (Lit "* ERROR: Couldn't import twine.") ;;
             exit_with "ERROR_MISSING_DEPENDENCIES"
         | _ => raise exc
         end) ;;
  set_py_exe (VStr (ext_executable ext)) ;;
  py <- get_py_exe ;;
  print banner ;;
  print (Fmt "* Uploading to %s with username %s." [pypi_url; pypi_username]) ;;
  print (Fmt "* Using twine located at %s." [VStr twine_py]) ;;
  flush ;;
  rc <- run [py; VStr twine_py; VStr "upload"; VStr "--non-interactive";
             VStr "--repository-url"; pypi_url; VStr "dist/*"] ;;
  when (negb (Z.eqb rc 0)) (exit_with "PYPI_UPLOAD_FAILURE").

(** The branch that uploads. *)
Definition publish (pypi_config pypi_username : value) : Py unit :=
  print banner ;;
  print (Lit "* Preparing to upload to twine.") ;;
  print (Lit "* Ensuring that twine is installed.") ;;
  flush ;;
  pypi_url <- get_method pypi_config "target_url" (VStr "") ;;
  when (negb (truthy pypi_url))
    (print (Lit "* ERROR: Missing pypi->target_url value in build.yml.") ;;
     exit_with "PYPI_MISSING_CONFIG_VARS") ;;
  install_twine ;;
  upload pypi_url pypi_username.

(** The [elif] branch. *)
Definition missing_credentials : Py unit :=
  print (Lit "* ERROR: Only a username or password supplied for pypi") ;;
  flush ;;
  exit_with "PYPI_MISSING_ENVIRONMENT_VARS".

(** The [else] branch. *)
Definition skip_upload : Py unit :=
  print banner ;;
  print (Lit "* INFO: Not uploading to pypi.") ;;
  flush.

(** [os.environ.get(name, None)] as a value. *)
Definition environ_get (name : string) : value :=
  match ext_environ ext !! name with
  | Some s => VStr s
  | None => VNone
  end.

Definition is_none (v : value) : bool :=
  match v with
  | VNone => true
  | _ => false
  end.

(** [a != b] where each side is a string or [None]. *)
Definition differ (a b : value) : bool :=
  match a, b with
  | VStr x, VStr y => negb (String.eqb x y)
  | VNone, VNone => false
  | _, _ => true
  end.

Definition publisher (config : value) : Py unit :=
  pypi_config <- get_method config "pypi" (VDict []) ;;
  only_tags <- get_method pypi_config "only_upload_tags" (VBool true) ;;
  let pypi_username := environ_get "TWINE_USERNAME" in
  let pypi_password := environ_get "TWINE_PASSWORD" in
  if negb (is_none pypi_username)
     && negb (is_none pypi_password)
     && ((truthy only_tags && is_tag) || negb (truthy only_tags))
  then publish pypi_config pypi_username
  else if (is_none pypi_username || is_none pypi_password)
          && differ pypi_username pypi_password
  then missing_credentials
  else skip_upload.

(** ** The script, from the loading of the configuration to the last line *)

(** Everything before the loop over the targets. *)
Definition prepare (args_config_file : string) : Py value :=
  config <- load_config args_config_file ;;
  clean_dist ;;
  copy_include_files config ;;
  ret config.

Definition wheelman (args_target args_config_file : string) : Py unit :=
  config <- prepare args_config_file ;;
  build_targets config args_target ;;
  publisher config ;;
  exit_with "SUCCESS".

End Script.

(** The exit status of the process: the argument of [exit], 1 for an
    exception nobody caught. *)
Definition exit_status {A} (r : result A) : Z :=
  match r with
  | Exit c => c
  | Raise _ => 1
  | Ok _ => 0
  end.

(** The state the script starts in: nothing printed, [py_exe] unbound. *)
Definition initial {W} (w : W) : state W := State w [] None.

(** The commands handed to [run], in order. *)
Definition runs (tr : list event) : list (list string) :=
  omap (fun e => match e with ERun cmd => Some cmd | _ => None end) tr.

(** ** Frame conditions

    [respects R m]: every run of [m] takes a state to an [R]-related one,
    however it ends. The two relations of interest: the trace only grows,
    and [py_exe] keeps its binding. *)
Definition respects {W A} (R : relation (state W)) (m : M W A) : Prop :=
  forall s, R s (m s).2.

Definition trace_grows {W} : relation (state W) :=
  fun s s' => exists tr, trace s' = trace s ++ tr.

Definition same_py_exe {W} : relation (state W) :=
  fun s s' => py_exe s' = py_exe s.

(** The state in which a target's build commands start, once the cleanup
    has returned [s1] and the helper has been installed in world [w2]. *)
Definition ready_to_build {W} (py : string) (s1 : state W) (w2 : W) : state W :=
  State w2
    (trace s1 ++ [EPrint banner;
                  EPrint (Fmt "* Preparing environment for %s now." [VStr py]);
                  EFlush;
                  ERun [py; "-m"; "pip"; "install"; "wheel"];
                  EPrint banner;
                  EPrint (Fmt "* Building for %s now." [VStr py]);
                  EFlush])
    (Some (VStr py)).

(** ** A scripted build agent

    A concrete environment to run the script in: the world counts the
    calls made so far, and every answer is fixed by the scenario. *)

Record scenario : Type := Scenario {
  sc_file : option yaml_result;
  sc_environ : list (string * string);
  sc_rmtree_ok : bool;
  sc_returncode : list string -> Z;
  sc_twine : option string
}.

Definition agent (sc : scenario) : Externals nat := {|
  ext_open_read := fun _ n =>
    (match sc_file sc with Some _ => Some "config" | None => None end, S n);
  ext_yaml_load := fun _ => default (YamlError None) (sc_file sc);
  ext_rmtree := fun _ n => (if sc_rmtree_ok sc then Some tt else None, S n);
  ext_copyfile := fun _ _ n => (Some tt, S n);
  ext_run := fun cmd n => (Some (sc_returncode sc cmd), S n);
  ext_twine_file := fun _ => sc_twine sc;
  ext_environ := list_to_map (sc_environ sc);
  ext_executable := "python"
|}.

Definition py37_entries : list (value * value) :=
  [(VStr "python", VStr "py37"); (VStr "wheel", VBool true)].

Definition py38_entries : list (value * value) :=
  [(VStr "python", VStr "py38"); (VStr "sdist", VBool true);
   (VStr "wheel", VBool true)].

Definition py39_entries : list (value * value) :=
  [(VStr "python", VStr "py39"); (VStr "sdist", VBool false)].

Definition pypi_entries (only_upload_tags : bool) (url : string) :
    list (value * value) :=
  [(VStr "only_upload_tags", VBool only_upload_tags);
   (VStr "target_url", VStr url)].

Definition config_entries (group : list value) (pypi : list (value * value)) :
    list (value * value) :=
  [(VStr "name", VStr "pkg");
   (VStr "include_files", VList [VStr "LICENSE"]);
   (VStr "targets", VDict [(VStr "windows", VList group)]);
   (VStr "pypi", VDict pypi)].

Definition credentials : list (string * string) :=
  [("TWINE_USERNAME", "u"); ("TWINE_PASSWORD", "p")].

(** Every command succeeds. *)
Definition all_fine (cmd : list string) : Z := 0.

(** Every command succeeds but those with the given word on the command
    line, which return 1. *)
Definition failing (word : string) (cmd : list string) : Z :=
  if bool_decide (word ∈ cmd) then 1 else 0.

(** The scenarios of the examples. *)
Definition endpoint : string := "https://upload.example/legacy/".

Definition build_agent (config : list (value * value))
    (env : list (string * string)) (rmtree_ok : bool)
    (returncode : list string -> Z) : Externals nat :=
  agent (Scenario (Some (YamlValue (VDict config))) env rmtree_ok returncode
           (Some "twine/__main__.py")).

Definition two_targets : list (value * value) :=
  config_entries [VDict py37_entries; VDict py38_entries]
    (pypi_entries true endpoint).

Definition one_target : list (value * value) :=
  config_entries [VDict py38_entries] (pypi_entries false endpoint).

Definition idle_target : list (value * value) :=
  config_entries [VDict py39_entries] (pypi_entries false "").

Definition no_targets : list (value * value) :=
  config_entries [] (pypi_entries false endpoint).

Definition wheel_fails : Externals nat :=
  build_agent two_targets credentials true (failing "bdist_wheel").

Definition upload_fails : Externals nat :=
  build_agent one_target credentials true (failing "upload").

Definition locked_egg_info : Externals nat :=
  build_agent one_target [] false all_fine.

Definition nothing_selected : Externals nat :=
  build_agent no_targets credentials true all_fine.

Definition only_username : Externals nat :=
  build_agent one_target [("TWINE_USERNAME", "u")] true all_fine.

Definition untagged_commit : Externals nat :=
  build_agent two_targets credentials true all_fine.

Definition broken_yaml : Externals nat :=
  agent (Scenario (Some (YamlError (Some (2, 4)))) [] true all_fine None).

Definition no_config_file : Externals nat :=
  agent (Scenario None [] true all_fine None).

(** ** Reading a run *)


(** [exits_within codes m]: when [m] calls [exit], the code is one of
    [codes]. *)
Definition exits_within {W A} (codes : list Z) (m : M W A) : Prop :=
  forall s c s', m s = (Exit c, s') -> c ∈ codes.

(** The files handed to [shutil.copyfile], in order. *)
Definition copies (tr : list event) : list (value * text) :=
  omap (fun e => match e with ECopyfile src dst => Some (src, dst) | _ => None end)
    tr.

(** Where an include file is copied to: ["%s/%s" % (config['name'], name)]. *)
Definition include_copy (pkg name : value) : value * text :=
  (name, Fmt "%s/%s" [pkg; name]).

(** A build flag of a target, [target.get(key, False)] as a condition. *)
Definition build_flag (tkvs : list (value * value)) (key : string) : bool :=
  truthy (default (VBool false) (dict_get key tkvs)).

(** The commands of one target whose interpreter is [py]. *)
Definition target_commands (py : string) (tkvs : list (value * value)) :
    list (list string) :=
  [py; "-m"; "pip"; "install"; "wheel"]
  :: (if build_flag tkvs "sdist" then [[py; "setup.py"; "sdist"]] else [])
  ++ (if build_flag tkvs "wheel" then [[py; "setup.py"; "bdist_wheel"]] else []).

(** The interpreter of the last target, what [py_exe] is bound to when the
    loop is over. *)
Definition last_python (group : list (string * list (value * value))) :
    option value :=
  (fun t => VStr t.1) <$> last group.

(** ** The statements before the configuration is loaded

    The module body from its first statement to [args.parse_args()]. Two
    things decide how far it gets: the names bound in the module namespace
    when the script starts ([globals], which a fresh interpreter leaves
    without [sys] and without [args]), and the modules that can be
    imported. None of the names the statements bind on the way
    ([ExitCodes], the imported modules, [parser]) is [sys] before its use
    or [args], so both uses are looked up in [globals]. The class
    statement and the construction of the argument parser are taken to
    succeed and leave no trace. [traceback] is the text of
    [format_exc()]. *)

Definition use_name {W} (globals : gset string) (name : string) : M W unit :=
  if bool_decide (name ∈ globals) then ret tt else raise (NameError name).

Definition import_module {W} (importable : string -> bool) (module : string) :
    M W unit :=
  if importable module then ret tt else raise ImportError.

Definition prelude {W} (globals : gset string) (importable : string -> bool)
    (traceback : string) : M W unit :=
  print banner ;;
  print (Lit "* Initializing Wheelman.") ;;
  use_name globals "sys" ;;
  flush ;;
  import_module importable "os" ;;
  import_module importable "sys" ;;
  import_module importable "shutil" ;;
  import_module importable "argparse" ;;
  import_module importable "traceback" ;;
  try_except
    (import_module importable "yaml" ;;
     import_module importable "subprocess.run")
    (fun exc =>
       match exc with
       | ImportError =>
           print (Lit traceback) ;;
           exit_with "ERROR_MISSING_DEPENDENCIES"
       | _ =>
           print (Lit traceback) ;;
           exit_with "UNSPECIFIED"
       end) ;;
  use_name globals "args".

(** More scenarios for the examples. *)
Definition include_entries (files : list value) : list (value * value) :=
  [(VStr "name", VStr "pkg"); (VStr "include_files", VList files);
   (VStr "targets", VDict [])].

(** Every copy succeeds but that of the given file. *)
Definition copy_agent (missing : string) : Externals nat := {|
  ext_open_read := fun _ n => (Some "config", S n);
  ext_yaml_load := fun _ => YamlValue (VDict (include_entries []));
  ext_rmtree := fun _ n => (Some tt, S n);
  ext_copyfile := fun src _ n =>
    (match src with
     | VStr f => if String.eqb f missing then None else Some tt
     | _ => None
     end, S n);
  ext_run := fun _ n => (Some 0, S n);
  ext_twine_file := fun _ => None;
  ext_environ := ∅;
  ext_executable := "python"
|}.

Definition release_build : Externals nat :=
  build_agent two_targets
    (("APPVEYOR_REPO_TAG", "true") :: credentials) true all_fine.

Definition helper_fails : Externals nat :=
  build_agent two_targets credentials true (failing "wheel").

Definition twine_install_fails : Externals nat :=
  build_agent one_target credentials true (failing "twine").

Definition twine_missing : Externals nat :=
  agent (Scenario (Some (YamlValue (VDict one_target))) credentials true
           all_fine None).

Definition empty_document : Externals nat :=
  agent (Scenario (Some (YamlValue VNone)) credentials true all_fine None).

Definition tagged_without_pypi : Externals nat :=
  build_agent [(VStr "name", VStr "pkg")]
    (("APPVEYOR_REPO_TAG", "true") :: credentials) true all_fine.




Definition fresh_interpreter : gset string := ∅.

Definition prebound : gset string := {["sys"; "args"]}.

Definition sys_only : gset string := {["sys"]}.

Definition without_yaml (module : string) : bool :=
  negb (String.eqb module "yaml").

Definition built_group : list (string * list (value * value)) :=
  [("py37", py37_entries); ("py38", py38_entries)].

Definition license_and_readme : list (value * value) :=
  include_entries [VStr "LICENSE"; VStr "README.md"; VStr "NOTICE"].

Definition everything_importable (module : string) : bool := true.

(** * Properties *)

(** ** The exit-code enumeration *)

Lemma exit_code_defined {W A} (name : string) (c : Z) (s : state W) :
  ExitCodes !! name = Some c -> exit_with (A := A) name s = (Exit c, s).
Proof. intros H. unfold exit_with. now rewrite H. Qed.

Lemma exit_code_undefined {W A} (name : string) (s : state W) :
  ExitCodes !! name = None ->
  exit_with (A := A) name s = (Raise (AttributeError name), s).
Proof. intros H. unfold exit_with. now rewrite H. Qed.

Lemma exit_success {W A} (s : state W) :
  exit_with (A := A) "SUCCESS" s = (Exit 0, s).
Proof. now apply exit_code_defined. Qed.

Lemma exit_config_file_not_found {W A} (s : state W) :
  exit_with (A := A) "CONFIG_FILE_NOT_FOUND" s = (Exit 11, s).
Proof. now apply exit_code_defined. Qed.

Lemma exit_config_yaml_parsing_error {W A} (s : state W) :
  exit_with (A := A) "CONFIG_YAML_PARSING_ERROR" s = (Exit 12, s).
Proof. now apply exit_code_defined. Qed.

Lemma exit_build_failed_wheel {W A} (s : state W) :
  exit_with (A := A) "BUILD_FAILED_WHEEL" s = (Exit 20, s).
Proof. now apply exit_code_defined. Qed.

Lemma exit_build_failed_source_dist {W A} (s : state W) :
  exit_with (A := A) "BUILD_FAILED_SOURCE_DIST" s = (Exit 21, s).
Proof. now apply exit_code_defined. Qed.

Lemma exit_pip_failure {W A} (s : state W) :
  exit_with (A := A) "PIP_FAILURE" s = (Exit 30, s).
Proof. now apply exit_code_defined. Qed.

Lemma exit_missing_environment_vars {W A} (s : state W) :
  exit_with (A := A) "PYPI_MISSING_ENVIRONMENT_VARS" s = (Exit 51, s).
Proof. now apply exit_code_defined. Qed.

Lemma exit_missing_config_vars {W A} (s : state W) :
  exit_with (A := A) "PYPI_MISSING_CONFIG_VARS" s = (Exit 52, s).
Proof. now apply exit_code_defined. Qed.

(** The two names the script uses without defining them. *)
Lemma exit_upload_failure_undefined {W A} (s : state W) :
  exit_with (A := A) "PYPI_UPLOAD_FAILURE" s
  = (Raise (AttributeError "PYPI_UPLOAD_FAILURE"), s).
Proof. now apply exit_code_undefined. Qed.

Lemma exit_error_missing_dependencies_undefined {W A} (s : state W) :
  exit_with (A := A) "ERROR_MISSING_DEPENDENCIES" s
  = (Raise (AttributeError "ERROR_MISSING_DEPENDENCIES"), s).
Proof. now apply exit_code_undefined. Qed.

Create Rewrite HintDb exitcodes.
#[global] Hint Rewrite @exit_success @exit_config_file_not_found
  @exit_config_yaml_parsing_error @exit_build_failed_wheel
  @exit_build_failed_source_dist @exit_pip_failure
  @exit_missing_environment_vars @exit_missing_config_vars
  @exit_upload_failure_undefined
  @exit_error_missing_dependencies_undefined : exitcodes.

(** ** Stepping through the monad *)

Lemma bind_ok {W A B} (m : M W A) (k : A -> M W B) s a s' :
  m s = (Ok a, s') -> bind m k s = k a s'.
Proof. intros H. unfold bind. now rewrite H. Qed.

Lemma bind_raise {W A B} (m : M W A) (k : A -> M W B) s e s' :
  m s = (Raise e, s') -> bind m k s = (Raise e, s').
Proof. intros H. unfold bind. now rewrite H. Qed.

Lemma bind_exit {W A B} (m : M W A) (k : A -> M W B) s c s' :
  m s = (Exit c, s') -> bind m k s = (Exit c, s').
Proof. intros H. unfold bind. now rewrite H. Qed.

Ltac py_unfold :=
  unfold bind, print, flush, emit, ret, raise, when, set_py_exe, get_py_exe,
    get_method, subscript, try_except in *.

(** Reading the commands off a trace that ends in known events. *)
Ltac runs_simpl :=
  repeat rewrite omap_app; unfold runs in *; repeat rewrite omap_app; cbn;
  repeat match goal with H : omap _ _ = [] |- _ => rewrite H end;
  cbn; repeat rewrite app_nil_r.

Ltac py_simpl :=
  py_unfold; cbn in *; autorewrite with exitcodes; cbn;
  repeat rewrite <- app_assoc; cbn.

(** ** Frame conditions of the combinators *)

Section Frame.
Context {W : Type} (R : relation (state W)) `{!PreOrder R}.

Lemma respects_ret {A} (a : A) : respects R (ret a).
Proof. intros s. reflexivity. Qed.

Lemma respects_raise {A} (e : exn) : respects R (raise (A := A) e).
Proof. intros s. reflexivity. Qed.

Lemma respects_exit_with {A} (name : string) : respects R (exit_with (A := A) name).
Proof. unfold exit_with. destruct (ExitCodes !! name); intros s; reflexivity. Qed.

Lemma respects_bind {A B} (m : M W A) (k : A -> M W B) :
  respects R m -> (forall a, respects R (k a)) -> respects R (bind m k).
Proof.
  intros Hm Hk s. unfold bind. specialize (Hm s).
  destruct (m s) as [[a | e | c] s']; cbn in *; [| assumption..].
  transitivity s'; [assumption | apply Hk].
Qed.

Lemma respects_try_except {A} (body : M W A) (handler : exn -> M W A) :
  respects R body -> (forall e, respects R (handler e)) ->
  respects R (try_except body handler).
Proof.
  intros Hb Hh s. unfold try_except. specialize (Hb s).
  destruct (body s) as [[a | e | c] s']; cbn in *; [assumption | | assumption].
  transitivity s'; [assumption | apply Hh].
Qed.

Lemma respects_when (cond : bool) (body : M W unit) :
  respects R body -> respects R (when cond body).
Proof. intros Hb. destruct cond; [exact Hb | apply respects_ret]. Qed.

Lemma respects_for_each {A} (xs : list A) (body : A -> M W unit) :
  (forall x, respects R (body x)) -> respects R (for_each xs body).
Proof.
  intros Hb. induction xs as [| x xs IH]; cbn.
  - apply respects_ret.
  - apply respects_bind; [apply Hb | intros _; exact IH].
Qed.

Lemma respects_subscript (v : value) (k : string) : respects R (subscript v k).
Proof.
  destruct v; cbn; try apply respects_raise.
  destruct (dict_get k kvs); [apply respects_ret | apply respects_raise].
Qed.

Lemma respects_get_method (v : value) (k : string) (dflt : value) :
  respects R (get_method v k dflt).
Proof. destruct v; cbn; try apply respects_raise. apply respects_ret. Qed.

Lemma respects_iterate (v : value) : respects R (iterate v).
Proof. destruct v; cbn; try apply respects_raise; apply respects_ret. Qed.

Lemma respects_get_py_exe : respects R get_py_exe.
Proof. intros s. unfold get_py_exe. destruct (py_exe s); reflexivity. Qed.

End Frame.

Create HintDb frame.
#[global] Hint Resolve respects_ret respects_raise respects_exit_with
  respects_subscript respects_get_method respects_iterate
  respects_get_py_exe : frame.

(** Splits a frame condition along the structure of the computation. *)
Ltac frame_step :=
  lazymatch goal with
  | |- respects _ (bind _ _) => apply respects_bind; [apply _ | | intros ?]
  | |- respects _ (try_except _ _) =>
      apply respects_try_except; [apply _ | | intros ?]
  | |- respects _ (when _ _) => apply respects_when; [apply _ |]
  | |- respects _ (for_each _ _) => apply respects_for_each; [apply _ | intros ?]
  | |- respects _ (match ?x with _ => _ end) => destruct x
  end.

Ltac frame :=
  unfold print, flush; repeat frame_step; eauto with frame typeclass_instances.

#[global] Instance trace_grows_preorder {W} : PreOrder (@trace_grows W).
Proof.
  split.
  - intros s. exists []. now rewrite app_nil_r.
  - intros s1 s2 s3 [tr Htr] [tr' Htr']. exists (tr ++ tr').
    now rewrite Htr', Htr, app_assoc.
Qed.

#[global] Instance same_py_exe_preorder {W} : PreOrder (@same_py_exe W).
Proof.
  split.
  - intros s. reflexivity.
  - intros s1 s2 s3 H12 H23. unfold same_py_exe in *. congruence.
Qed.

Section FramePrimitives.
Context {W : Type} (ext : Externals W).

Lemma emit_grows (e : event) : respects (W := W) trace_grows (emit e).
Proof. intros s. now exists [e]. Qed.

Lemma emit_same_py_exe (e : event) : respects (W := W) same_py_exe (emit e).
Proof. intros s. reflexivity. Qed.

Lemma set_py_exe_grows (v : value) : respects (W := W) trace_grows (set_py_exe v).
Proof. intros s. exists []. cbn. now rewrite app_nil_r. Qed.

Lemma run_grows (args : list value) : respects trace_grows (run ext args).
Proof.
  unfold run. destruct (command args) as [cmd |]; [| apply respects_raise; apply _].
  intros s. unfold bind, emit. cbn.
  destruct (ext_run ext cmd (world s)) as [[rc |] w']; now exists [ERun cmd].
Qed.

Lemma run_same_py_exe (args : list value) : respects same_py_exe (run ext args).
Proof.
  unfold run. destruct (command args) as [cmd |]; [| apply respects_raise; apply _].
  intros s. unfold bind, emit. cbn.
  now destruct (ext_run ext cmd (world s)) as [[rc |] w'].
Qed.

Lemma rmtree_same_py_exe (path : text) : respects same_py_exe (rmtree ext path).
Proof.
  intros s. unfold rmtree, bind, emit. cbn.
  now destruct (ext_rmtree ext path (world s)) as [[u |] w'].
Qed.

Lemma copyfile_same_py_exe (src : value) (dst : text) :
  respects same_py_exe (copyfile ext src dst).
Proof.
  intros s. unfold copyfile, bind, emit. cbn.
  now destruct (ext_copyfile ext src dst (world s)) as [[u |] w'].
Qed.

Lemma open_read_same_py_exe (path : string) :
  respects same_py_exe (open_read ext path).
Proof.
  intros s. unfold open_read, bind, emit. cbn.
  now destruct (ext_open_read ext path (world s)) as [[content |] w'].
Qed.

Lemma yaml_load_same_py_exe (content : string) :
  respects same_py_exe (yaml_load ext content).
Proof.
  unfold yaml_load. destruct (ext_yaml_load ext content);
    [apply respects_ret | apply respects_raise | apply respects_raise
    | intros s; reflexivity]; apply _.
Qed.

Lemma import_twine_grows : respects trace_grows (import_twine ext).
Proof.
  intros s. unfold import_twine, bind, emit. cbn.
  destruct (ext_twine_file ext (world s)); now exists [EImportTwine].
Qed.

End FramePrimitives.

#[global] Hint Resolve emit_grows emit_same_py_exe set_py_exe_grows run_grows
  run_same_py_exe rmtree_same_py_exe copyfile_same_py_exe
  open_read_same_py_exe yaml_load_same_py_exe import_twine_grows : frame.

Section Properties.
Context {W : Type} (ext : Externals W).
Implicit Types (s : state W) (config target : value).
Implicit Types (kvs pkvs tkvs : list (value * value)).

(** ** Publisher: the decision *)

(** What the [else] branch leaves behind. *)
Lemma skip_upload_spec s :
  skip_upload s
  = (Ok tt,
     State (world s)
       (trace s ++ [EPrint banner; EPrint (Lit "* INFO: Not uploading to pypi.");
                    EFlush])
       (py_exe s)).
Proof. unfold skip_upload. py_simpl. reflexivity. Qed.


(** ** Publisher: the upload endpoint *)

Lemma runs_app (tr tr' : list event) : runs (tr ++ tr') = runs tr ++ runs tr'.
Proof. apply omap_app. Qed.

(** C10. In the upload branch an endpoint that is the empty string ends the
    script with exit code 52 after the error message, exactly as a missing
    [target_url] entry does, and no command has been run by then. *)
Theorem empty_target_url_is_missing kvs kvs' (u : value) s :
  dict_get "target_url" kvs = Some (VStr "") ->
  dict_get "target_url" kvs' = None ->
  publish ext (VDict kvs) u s
  = (Exit 52,
     State (world s)
       (trace s ++ [EPrint banner;
                    EPrint (Lit "* Preparing to upload to twine.");
                    EPrint (Lit "* Ensuring that twine is installed.");
                    EFlush;
                    EPrint (Lit "* ERROR: Missing pypi->target_url value in build.yml.")])
       (py_exe s))
  /\ publish ext (VDict kvs) u s = publish ext (VDict kvs') u s
  /\ runs (trace (publish ext (VDict kvs) u s).2) = runs (trace s).
Proof.
  intros Hurl Habsent.
  assert (Hempty : publish ext (VDict kvs) u s
    = (Exit 52,
       State (world s)
         (trace s ++ [EPrint banner;
                      EPrint (Lit "* Preparing to upload to twine.");
                      EPrint (Lit "* Ensuring that twine is installed.");
                      EFlush;
                      EPrint (Lit "* ERROR: Missing pypi->target_url value in build.yml.")])
         (py_exe s))).
  { unfold publish. py_simpl. rewrite Hurl. py_simpl. reflexivity. }
  split; [exact Hempty |]. split.
  - rewrite Hempty. unfold publish. py_simpl. rewrite Habsent. py_simpl.
    reflexivity.
  - rewrite Hempty. cbn. rewrite runs_app. cbn. apply app_nil_r.
Qed.

(** ** Target Builder: the selected group *)

(** C4. When the [targets] mapping is empty or has no entry for the
    selector, the Target Builder returns normally and leaves the state as
    it found it: nothing is printed, deleted or run. The script goes on
    with the Publisher from that very state. *)
Theorem no_selected_targets_no_build kvs tkvs (selector : string) s :
  dict_get "targets" kvs = Some (VDict tkvs) ->
  tkvs = [] \/ dict_get selector tkvs = None ->
  build_targets ext (VDict kvs) selector s = (Ok tt, s)
  /\ (build_targets ext (VDict kvs) selector ;; publisher ext (VDict kvs)) s
     = publisher ext (VDict kvs) s.
Proof.
  intros Htargets Hsel.
  assert (Hnone : dict_get selector tkvs = None).
  { destruct Hsel as [-> | H]; [reflexivity | exact H]. }
  assert (Hbuild : build_targets ext (VDict kvs) selector s = (Ok tt, s)).
  { unfold build_targets, selected_targets, iterate. py_simpl.
    rewrite Htargets. cbn. rewrite Hnone. reflexivity. }
  split; [exact Hbuild |].
  now rewrite (bind_ok _ _ _ _ _ Hbuild).
Qed.

(** ** Target Builder: one target *)

Lemma state_eta s : State (world s) (trace s) (py_exe s) = s.
Proof. now destruct s. Qed.

(** The removal of the metadata folder always returns normally. It adds to
    the trace at most the attempt itself and never touches [py_exe]. *)
Lemma clean_egg_info_returns config s :
  exists w' tr,
    clean_egg_info ext config s = (Ok tt, State w' (trace s ++ tr) (py_exe s))
    /\ runs tr = [].
Proof.
  unfold clean_egg_info, try_except, bind, subscript.
  assert (Hnop : (Ok tt, s) = (Ok tt, State (world s) (trace s ++ []) (py_exe s))).
  { now rewrite app_nil_r, state_eta. }
  destruct config; cbn; try (exists (world s), []; split; [exact Hnop | reflexivity]).
  destruct (dict_get "name" kvs) as [pkg |]; cbn;
    [| exists (world s), []; split; [exact Hnop | reflexivity]].
  unfold rmtree, bind, emit. cbn.
  destruct (ext_rmtree ext (Fmt "%s.egg-info" [pkg]) (world s)) as [[[] |] w'];
    cbn; exists w', [ERmtree (Fmt "%s.egg-info" [pkg])]; split; reflexivity.
Qed.

(** The loop body is the three announcements, the cleanup, and the build
    steps from the state the cleanup returned. *)
Lemma build_target_after_cleanup config target s :
  exists w' tr,
    build_target ext config target s
    = build_steps ext target
        (State w'
           (trace s ++ [EPrint banner; EPrint (Lit "* Cleaning up egg-info.");
                        EFlush] ++ tr)
           (py_exe s))
    /\ runs tr = [].
Proof.
  unfold build_target. py_simpl.
  set (s1 := State (world s) _ (py_exe s)).
  destruct (clean_egg_info_returns config s1) as (w' & tr & Hclean & Hruns).
  exists w', tr. rewrite Hclean. subst s1. cbn.
  repeat rewrite <- app_assoc. cbn. split; [reflexivity | exact Hruns].
Qed.

(** C5. A target with a string for [python] whose [sdist] and [wheel] flags
    are both false or absent: whatever the cleanup and the installation
    do, the only command run for the target is
    [<python> -m pip install wheel]. *)
Theorem flagless_target_only_installs_helper config kvs (py : string) s :
  dict_get "python" kvs = Some (VStr py) ->
  truthy (default (VBool false) (dict_get "sdist" kvs)) = false ->
  truthy (default (VBool false) (dict_get "wheel" kvs)) = false ->
  runs (trace (build_target ext config (VDict kvs) s).2)
  = runs (trace s) ++ [[py; "-m"; "pip"; "install"; "wheel"]].
Proof.
  intros Hpy Hsdist Hwheel.
  destruct (build_target_after_cleanup config (VDict kvs) s)
    as (w' & tr & -> & Hruns).
  unfold build_steps, install_wheel_helper, run. py_simpl. rewrite Hpy. cbn.
  destruct (ext_run ext [py; "-m"; "pip"; "install"; "wheel"] w')
    as [[rc |] w'']; cbn.
  - destruct (Z.eqb rc 0); cbn.
    + rewrite Hsdist. cbn. rewrite Hwheel. cbn. now runs_simpl.
    + autorewrite with exitcodes. cbn. now runs_simpl.
  - now runs_simpl.
Qed.

(** ** Target Builder: the first failure ends the script *)

Lemma for_each_halts {A} (body : A -> M W unit) (x : A) (rest : list A) s :
  halted (body x s).1 -> for_each (x :: rest) body s = body x s.
Proof.
  cbn. unfold bind. destruct (body x s) as [[[] | e | c] s']; cbn;
    [intros [] | reflexivity..].
Qed.

Lemma for_each_app {A} (body : A -> M W unit) (pre post : list A) s s1 :
  for_each pre body s = (Ok tt, s1) ->
  for_each (pre ++ post) body s = for_each post body s1.
Proof.
  revert s. induction pre as [| x pre IH]; intros s H; cbn in *.
  - unfold ret in H. now inversion H.
  - unfold bind in *. destruct (body x s) as [[[] | e | c] s'];
      [now apply IH | discriminate..].
Qed.

(** A source distribution whose command returns non-zero: exit code 21. *)
Lemma build_sdist_failure tkvs (py : string) s (rc : Z) w' :
  truthy (default (VBool false) (dict_get "sdist" tkvs)) = true ->
  ext_run ext [py; "setup.py"; "sdist"] (world s) = (Some rc, w') ->
  rc <> 0 ->
  build_sdist ext (VDict tkvs) (VStr py) s
  = (Exit 21,
     State w'
       (trace s ++ [EPrint (Lit "* Doing a source distribution!"); EFlush;
                    ERun [py; "setup.py"; "sdist"];
                    EPrint (Fmt "Failed to build source dist for %s" [VStr py])])
       (py_exe s)).
Proof.
  intros Hflag Hrun Hrc. unfold build_sdist, run. py_simpl.
  rewrite Hflag. cbn. rewrite Hrun. cbn.
  apply Z.eqb_neq in Hrc. rewrite Hrc. py_simpl. reflexivity.
Qed.

(** A wheel whose command returns non-zero: exit code 20. *)
Lemma build_wheel_failure tkvs (py : string) s (rc : Z) w' :
  truthy (default (VBool false) (dict_get "wheel" tkvs)) = true ->
  ext_run ext [py; "setup.py"; "bdist_wheel"] (world s) = (Some rc, w') ->
  rc <> 0 ->
  build_wheel ext (VDict tkvs) (VStr py) s
  = (Exit 20,
     State w'
       (trace s ++ [EPrint (Lit "* Doing a wheel!"); EFlush;
                    ERun [py; "setup.py"; "bdist_wheel"];
                    EPrint (Fmt "Failed to build wheel for %s" [VStr py])])
       (py_exe s)).
Proof.
  intros Hflag Hrun Hrc. unfold build_wheel, run. py_simpl.
  rewrite Hflag. cbn. rewrite Hrun. cbn.
  apply Z.eqb_neq in Hrc. rewrite Hrc. py_simpl. reflexivity.
Qed.

Lemma build_target_ready config tkvs (py : string) s s1 w2 :
  dict_get "python" tkvs = Some (VStr py) ->
  clean_egg_info ext config
    (State (world s)
       (trace s ++ [EPrint banner; EPrint (Lit "* Cleaning up egg-info."); EFlush])
       (py_exe s)) = (Ok tt, s1) ->
  ext_run ext [py; "-m"; "pip"; "install"; "wheel"] (world s1) = (Some 0, w2) ->
  build_target ext config (VDict tkvs) s
  = (build_sdist ext (VDict tkvs) (VStr py) ;;
     build_wheel ext (VDict tkvs) (VStr py)) (ready_to_build py s1 w2).
Proof.
  intros Hpy Hclean Hinstall.
  unfold build_target. py_simpl. cbn in Hclean. rewrite Hclean.
  unfold build_steps, install_wheel_helper, run. py_simpl.
  rewrite Hpy. cbn. rewrite Hinstall. py_simpl. reflexivity.
Qed.

(** C2. The first failing build command ends the script.
    - A target of the selected group that exits with code [c] after the
      targets before it were built: the whole script exits with [c] in the
      state that target left, so nothing of a later target and nothing of
      the Publisher has happened.
    - A target whose source distribution command returns non-zero exits
      with 21, and the group with it, whatever targets follow.
    - A target whose wheel command returns non-zero exits with 20, and the
      group with it, whatever targets follow: the last command run is that
      wheel build, so no [pip install wheel] of a following target. *)
Theorem failed_build_halts_later_targets config tkvs (py : string)
    (post : list value) s s1 w2 :
  (forall (selector : string) (pre : list value) target s0 s' (c : Z),
     selected_targets config selector s = (Ok (pre ++ target :: post), s) ->
     for_each pre (build_target ext config) s = (Ok tt, s0) ->
     build_target ext config target s0 = (Exit c, s') ->
     (build_targets ext config selector ;; publisher ext config ;;
      exit_with (A := unit) "SUCCESS") s = (Exit c, s'))
  /\ (dict_get "python" tkvs = Some (VStr py) ->
      clean_egg_info ext config
        (State (world s)
           (trace s ++ [EPrint banner; EPrint (Lit "* Cleaning up egg-info.");
                        EFlush])
           (py_exe s)) = (Ok tt, s1) ->
      ext_run ext [py; "-m"; "pip"; "install"; "wheel"] (world s1) = (Some 0, w2) ->
      (forall (rc : Z) w3,
         truthy (default (VBool false) (dict_get "sdist" tkvs)) = true ->
         ext_run ext [py; "setup.py"; "sdist"] w2 = (Some rc, w3) ->
         rc <> 0 ->
         for_each (VDict tkvs :: post) (build_target ext config) s
         = (Exit 21,
            State w3
              (trace (ready_to_build py s1 w2)
               ++ [EPrint (Lit "* Doing a source distribution!"); EFlush;
                   ERun [py; "setup.py"; "sdist"];
                   EPrint (Fmt "Failed to build source dist for %s" [VStr py])])
              (Some (VStr py))))
      /\ (forall s3 (rc : Z) w4,
            build_sdist ext (VDict tkvs) (VStr py) (ready_to_build py s1 w2)
            = (Ok tt, s3) ->
            truthy (default (VBool false) (dict_get "wheel" tkvs)) = true ->
            ext_run ext [py; "setup.py"; "bdist_wheel"] (world s3) = (Some rc, w4) ->
            rc <> 0 ->
            for_each (VDict tkvs :: post) (build_target ext config) s
            = (Exit 20,
               State w4
                 (trace s3
                  ++ [EPrint (Lit "* Doing a wheel!"); EFlush;
                      ERun [py; "setup.py"; "bdist_wheel"];
                      EPrint (Fmt "Failed to build wheel for %s" [VStr py])])
                 (py_exe s3)))).
Proof.
  split.
  - intros selector pre target s0 s' c Hsel Hpre Htarget.
    unfold build_targets.
    rewrite (bind_exit _ _ s c s'); [reflexivity |].
    rewrite (bind_ok _ _ _ _ _ Hsel).
    rewrite (for_each_app _ _ _ _ _ Hpre).
    rewrite for_each_halts; rewrite Htarget; [reflexivity | exact I].
  - intros Hpy Hclean Hinstall. split.
    + intros rc w3 Hflag Hrun Hrc.
      assert (Htarget : build_target ext config (VDict tkvs) s
        = (Exit 21,
           State w3
             (trace (ready_to_build py s1 w2)
              ++ [EPrint (Lit "* Doing a source distribution!"); EFlush;
                  ERun [py; "setup.py"; "sdist"];
                  EPrint (Fmt "Failed to build source dist for %s" [VStr py])])
             (Some (VStr py)))).
      { rewrite (build_target_ready _ _ _ _ _ _ Hpy Hclean Hinstall).
        apply bind_exit.
        exact (build_sdist_failure tkvs py (ready_to_build py s1 w2) rc w3
                 Hflag Hrun Hrc). }
      rewrite for_each_halts; rewrite Htarget; [reflexivity | exact I].
    + intros s3 rc w4 Hsdist Hflag Hrun Hrc.
      assert (Htarget : build_target ext config (VDict tkvs) s
        = (Exit 20,
           State w4
             (trace s3
              ++ [EPrint (Lit "* Doing a wheel!"); EFlush;
                  ERun [py; "setup.py"; "bdist_wheel"];
                  EPrint (Fmt "Failed to build wheel for %s" [VStr py])])
             (py_exe s3))).
      { rewrite (build_target_ready _ _ _ _ _ _ Hpy Hclean Hinstall).
        rewrite (bind_ok _ _ _ _ _ Hsdist).
        exact (build_wheel_failure tkvs py s3 rc w4 Hflag Hrun Hrc). }
      rewrite for_each_halts; rewrite Htarget; [reflexivity | exact I].
Qed.

(** ** Target Builder: the metadata cleanup *)

Lemma build_tail_grows target (py : value) :
  respects trace_grows
    (print banner ;;
     print (Fmt "* Building for %s now." [py]) ;;
     flush ;;
     build_sdist ext target py ;;
     build_wheel ext target py).
Proof. unfold build_sdist, build_wheel. frame. Qed.

(** Whatever it returns, the installation of the helper adds exactly its
    command to the trace. *)
Lemma install_wheel_helper_trace (py : string) s :
  trace (install_wheel_helper ext (VStr py) s).2
  = trace s ++ [ERun [py; "-m"; "pip"; "install"; "wheel"]].
Proof.
  unfold install_wheel_helper, run. py_simpl.
  destruct (ext_run ext [py; "-m"; "pip"; "install"; "wheel"] (world s))
    as [[rc |] w']; cbn; [| reflexivity].
  destruct (Z.eqb rc 0); py_simpl; reflexivity.
Qed.

Lemma bind_trace_grows {A B} (m : M W A) (k : A -> M W B) s :
  (forall a, respects trace_grows (k a)) ->
  exists tr, trace (bind m k s).2 = trace (m s).2 ++ tr.
Proof.
  intros Hk. unfold bind.
  destruct (m s) as [[a | e | c] s']; cbn;
    [apply Hk | exists []; now rewrite app_nil_r..].
Qed.

(** The build steps of a target with a string for [python] run
    [<python> -m pip install wheel] first. *)
Lemma build_steps_install_helper tkvs (py : string) s :
  dict_get "python" tkvs = Some (VStr py) ->
  exists tr,
    trace (build_steps ext (VDict tkvs) s).2
    = trace s ++ [EPrint banner;
                  EPrint (Fmt "* Preparing environment for %s now." [VStr py]);
                  EFlush;
                  ERun [py; "-m"; "pip"; "install"; "wheel"]] ++ tr.
Proof.
  intros Hpy.
  set (s1 := State (world s)
               (trace s ++ [EPrint banner;
                            EPrint (Fmt "* Preparing environment for %s now." [VStr py]);
                            EFlush])
               (Some (VStr py))).
  assert (Hsteps : build_steps ext (VDict tkvs) s
    = (install_wheel_helper ext (VStr py) ;;
       print banner ;;
       print (Fmt "* Building for %s now." [VStr py]) ;;
       flush ;;
       build_sdist ext (VDict tkvs) (VStr py) ;;
       build_wheel ext (VDict tkvs) (VStr py)) s1).
  { unfold build_steps, s1. py_simpl. rewrite Hpy. py_simpl. reflexivity. }
  rewrite Hsteps.
  destruct (bind_trace_grows (install_wheel_helper ext (VStr py))
              (fun _ => print banner ;;
                        print (Fmt "* Building for %s now." [VStr py]) ;;
                        flush ;;
                        build_sdist ext (VDict tkvs) (VStr py) ;;
                        build_wheel ext (VDict tkvs) (VStr py)) s1) as [tr Htr].
  { intros _. apply build_tail_grows. }
  exists tr. rewrite Htr, install_wheel_helper_trace. unfold s1. cbn.
  now repeat rewrite <- app_assoc.
Qed.

(** C8. The removal of [<name>.egg-info] never ends the script: it returns
    normally from every state and for every configuration. When the
    removal itself fails, the target is built from the state that the
    failed attempt left, and for a target with a string for [python] the
    command [<python> -m pip install wheel] is run. *)
Theorem egg_info_cleanup_failure_is_swallowed kvs (pkg : value) target s w' :
  (forall config s0, (clean_egg_info ext config s0).1 = Ok tt)
  /\ (dict_get "name" kvs = Some pkg ->
      ext_rmtree ext (Fmt "%s.egg-info" [pkg]) (world s) = (None, w') ->
      build_target ext (VDict kvs) target s
      = build_steps ext target
          (State w'
             (trace s ++ [EPrint banner; EPrint (Lit "* Cleaning up egg-info.");
                          EFlush; ERmtree (Fmt "%s.egg-info" [pkg])])
             (py_exe s))
      /\ (forall tkvs (py : string),
            target = VDict tkvs ->
            dict_get "python" tkvs = Some (VStr py) ->
            [py; "-m"; "pip"; "install"; "wheel"]
            ∈ runs (trace (build_target ext (VDict kvs) target s).2))).
Proof.
  split.
  - intros config s0.
    destruct (clean_egg_info_returns config s0) as (w0 & tr & -> & _).
    reflexivity.
  - intros Hname Hrm.
    assert (Hbody : build_target ext (VDict kvs) target s
      = build_steps ext target
          (State w'
             (trace s ++ [EPrint banner; EPrint (Lit "* Cleaning up egg-info.");
                          EFlush; ERmtree (Fmt "%s.egg-info" [pkg])])
             (py_exe s))).
    { unfold build_target, clean_egg_info, rmtree. py_simpl.
      rewrite Hname. cbn. rewrite Hrm. py_simpl. reflexivity. }
    split; [exact Hbody |].
    intros tkvs py -> Hpy. rewrite Hbody.
    destruct (build_steps_install_helper tkvs py
                (State w'
                   (trace s ++ [EPrint banner;
                                EPrint (Lit "* Cleaning up egg-info.");
                                EFlush; ERmtree (Fmt "%s.egg-info" [pkg])])
                   (py_exe s)) Hpy) as [tr ->].
    cbn. repeat rewrite runs_app. cbn. set_solver.
Qed.

(** ** The interpreter that installs twine *)

Lemma for_each_snoc_inv {A} (body : A -> M W unit) (pre : list A) (x : A) s s1 :
  for_each (pre ++ [x]) body s = (Ok tt, s1) ->
  exists s0, for_each pre body s = (Ok tt, s0) /\ body x s0 = (Ok tt, s1).
Proof.
  revert s. induction pre as [| y pre IH]; intros s H; cbn in *.
  - exists s. split; [reflexivity |]. unfold bind, ret in H.
    destruct (body x s) as [[[] | e | c] s']; [exact H | discriminate..].
  - unfold bind in *. destruct (body y s) as [[[] | e | c] s'];
      [now apply IH | discriminate..].
Qed.

Lemma build_rest_same_py_exe target (py : value) :
  respects same_py_exe
    (print banner ;;
     print (Fmt "* Preparing environment for %s now." [py]) ;;
     flush ;;
     install_wheel_helper ext py ;;
     print banner ;;
     print (Fmt "* Building for %s now." [py]) ;;
     flush ;;
     build_sdist ext target py ;;
     build_wheel ext target py).
Proof. unfold install_wheel_helper, build_sdist, build_wheel. frame. Qed.

(** A target that was built to the end has a string for [python] (the
    helper could not have been installed otherwise) and bound [py_exe] to
    it. *)
Lemma build_target_binds_py_exe config target s s1 :
  build_target ext config target s = (Ok tt, s1) ->
  exists tkvs (name : string),
    target = VDict tkvs /\ dict_get "python" tkvs = Some (VStr name)
    /\ py_exe s1 = Some (VStr name).
Proof.
  destruct (build_target_after_cleanup config target s) as (w' & tr & -> & _).
  unfold build_steps, subscript. unfold bind at 1.
  destruct target as [| | | | | tkvs]; try discriminate.
  destruct (dict_get "python" tkvs) as [py |] eqn:Hpy; [| discriminate].
  unfold ret. unfold bind at 1. cbn [set_py_exe].
  intros H.
  assert (Hstr : exists name : string, py = VStr name).
  { destruct py; try (cbn in H; discriminate). now eexists. }
  destruct Hstr as [name ->].
  exists tkvs, name. split; [reflexivity |]. split; [exact Hpy |].
  pose proof (build_rest_same_py_exe (VDict tkvs) (VStr name)
                (State w'
                   (trace s ++ [EPrint banner; EPrint (Lit "* Cleaning up egg-info.");
                                EFlush] ++ tr)
                   (Some (VStr name)))) as Hsame.
  unfold same_py_exe in Hsame. cbn in *. rewrite H in Hsame. exact Hsame.
Qed.

Lemma upload_grows (pypi_url pypi_username : value) :
  respects trace_grows (upload ext pypi_url pypi_username).
Proof. unfold upload. frame. Qed.

(** With an endpoint, the upload branch goes on to install twine. *)
Lemma publish_with_endpoint pkvs (url u : value) s :
  dict_get "target_url" pkvs = Some url ->
  truthy url = true ->
  publish ext (VDict pkvs) u s
  = (install_twine ext ;; upload ext url u)
      (State (world s)
         (trace s ++ [EPrint banner;
                      EPrint (Lit "* Preparing to upload to twine.");
                      EPrint (Lit "* Ensuring that twine is installed.");
                      EFlush])
         (py_exe s)).
Proof.
  intros Hurl Htruthy. unfold publish. py_simpl. rewrite Hurl. cbn.
  rewrite Htruthy. cbn. reflexivity.
Qed.

Lemma install_twine_bound (py : string) s :
  py_exe s = Some (VStr py) ->
  exists tr,
    trace (install_twine ext s).2
    = trace s ++ ERun [py; "-m"; "pip"; "install"; "twine"] :: tr.
Proof.
  intros Hpy. unfold install_twine, run. py_simpl. rewrite Hpy. cbn.
  destruct (ext_run ext [py; "-m"; "pip"; "install"; "twine"] (world s))
    as [[rc |] w']; cbn; [| now exists []].
  destruct (Z.eqb rc 0); py_simpl; eexists; reflexivity.
Qed.

Lemma install_twine_unbound s :
  py_exe s = None -> install_twine ext s = (Raise (NameError "py_exe"), s).
Proof. intros Hpy. unfold install_twine. py_simpl. now rewrite Hpy. Qed.

Lemma publish_without_endpoint pkvs (u : value) s :
  truthy (default (VStr "") (dict_get "target_url" pkvs)) = false ->
  publish ext (VDict pkvs) u s
  = (Exit 52,
     State (world s)
       (trace s ++ [EPrint banner;
                    EPrint (Lit "* Preparing to upload to twine.");
                    EPrint (Lit "* Ensuring that twine is installed.");
                    EFlush;
                    EPrint (Lit "* ERROR: Missing pypi->target_url value in build.yml.")])
       (py_exe s)).
Proof.
  intros Hurl. unfold publish. py_unfold. cbn -[default truthy].
  rewrite Hurl. py_simpl. reflexivity.
Qed.

Lemma publisher_upload_branch kvs pkvs (un pw : string) s :
  default (VDict []) (dict_get "pypi" kvs) = VDict pkvs ->
  ext_environ ext !! "TWINE_USERNAME" = Some un ->
  ext_environ ext !! "TWINE_PASSWORD" = Some pw ->
  truthy (default (VBool true) (dict_get "only_upload_tags" pkvs)) = false
  \/ is_tag ext = true ->
  publisher ext (VDict kvs) s = publish ext (VDict pkvs) (VStr un) s.
Proof.
  intros Hpypi Hu Hp Hcond.
  unfold publisher, get_method, bind, ret, environ_get.
  rewrite Hpypi, Hu, Hp. cbn -[default truthy].
  destruct Hcond as [-> | ->]; [reflexivity |].
  now destruct (truthy _).
Qed.

Lemma prepare_same_py_exe (path : string) : respects same_py_exe (prepare ext path).
Proof.
  unfold prepare, load_config, clean_dist, copy_include_files, unbound. frame.
Qed.

(** C9. The interpreter that installs twine.
    - After the loop has gone through a non-empty group, [py_exe] is the
      [python] of the last target, a string; in the upload branch with an
      endpoint the first command is then
      [<that python> -m pip install twine].
    - In a run from the initial state whose selected group is empty and
      whose Publisher takes the upload branch, [py_exe] is unbound when
      the Publisher starts: with an endpoint the script dies of
      [NameError: py_exe] where twine is to be installed, before any
      command; without one it exits with 52. Nothing is uploaded. *)
Theorem twine_installer_is_last_target_python :
  (forall config (pre : list value) target s s1,
     for_each (pre ++ [target]) (build_target ext config) s = (Ok tt, s1) ->
     exists tkvs (name : string),
       target = VDict tkvs /\ dict_get "python" tkvs = Some (VStr name)
       /\ py_exe s1 = Some (VStr name)
       /\ forall pkvs (url u : value),
            dict_get "target_url" pkvs = Some url ->
            truthy url = true ->
            exists tr,
              trace (publish ext (VDict pkvs) u s1).2
              = trace s1
                ++ [EPrint banner;
                    EPrint (Lit "* Preparing to upload to twine.");
                    EPrint (Lit "* Ensuring that twine is installed.");
                    EFlush;
                    ERun [name; "-m"; "pip"; "install"; "twine"]] ++ tr)
  /\ (forall (selector path : string) (w : W) kvs pkvs s3 (un pw : string),
        prepare ext path (initial w) = (Ok (VDict kvs), s3) ->
        selected_targets (VDict kvs) selector s3 = (Ok [], s3) ->
        default (VDict []) (dict_get "pypi" kvs) = VDict pkvs ->
        ext_environ ext !! "TWINE_USERNAME" = Some un ->
        ext_environ ext !! "TWINE_PASSWORD" = Some pw ->
        truthy (default (VBool true) (dict_get "only_upload_tags" pkvs)) = false
        \/ is_tag ext = true ->
        py_exe s3 = None
        /\ (truthy (default (VStr "") (dict_get "target_url" pkvs)) = true ->
            wheelman ext selector path (initial w)
            = (Raise (NameError "py_exe"),
               State (world s3)
                 (trace s3 ++ [EPrint banner;
                               EPrint (Lit "* Preparing to upload to twine.");
                               EPrint (Lit "* Ensuring that twine is installed.");
                               EFlush])
                 None))
        /\ (truthy (default (VStr "") (dict_get "target_url" pkvs)) = false ->
            wheelman ext selector path (initial w)
            = (Exit 52,
               State (world s3)
                 (trace s3 ++ [EPrint banner;
                               EPrint (Lit "* Preparing to upload to twine.");
                               EPrint (Lit "* Ensuring that twine is installed.");
                               EFlush;
                               EPrint (Lit "* ERROR: Missing pypi->target_url value in build.yml.")])
                 None))).
Proof.
  split.
  - intros config pre target s s1 Hloop.
    destruct (for_each_snoc_inv _ _ _ _ _ Hloop) as (s0 & _ & Hlast).
    destruct (build_target_binds_py_exe _ _ _ _ Hlast)
      as (tkvs & name & -> & Hpy & Hbound).
    exists tkvs, name. repeat split; try assumption.
    intros pkvs url u Hurl Htruthy.
    rewrite (publish_with_endpoint _ _ _ _ Hurl Htruthy).
    set (s2 := State (world s1) _ (py_exe s1)).
    destruct (bind_trace_grows (install_twine ext) (fun _ => upload ext url u) s2)
      as [tr Htr]; [intros _; apply upload_grows |].
    destruct (install_twine_bound name s2 Hbound) as [tr' Htr'].
    exists (tr' ++ tr). rewrite Htr, Htr'. subst s2. cbn.
    now repeat rewrite <- app_assoc.
  - intros selector path w kvs pkvs s3 un pw Hprep Hsel Hpypi Hu Hp Hcond.
    assert (Hunbound : py_exe s3 = None).
    { pose proof (prepare_same_py_exe path (initial w)) as Hsame.
      unfold same_py_exe in Hsame. now rewrite Hprep in Hsame. }
    assert (Hrun : wheelman ext selector path (initial w)
      = (publish ext (VDict pkvs) (VStr un) ;; exit_with "SUCCESS") s3).
    { unfold wheelman. rewrite (bind_ok _ _ _ _ _ Hprep).
      unfold build_targets. unfold bind at 1. unfold bind at 1.
      rewrite Hsel. cbn [for_each]. unfold ret at 1. unfold bind at 1.
      now rewrite (publisher_upload_branch _ _ _ _ _ Hpypi Hu Hp Hcond). }
    split; [exact Hunbound |]. rewrite Hrun. split.
    + intros Htruthy.
      destruct (dict_get "target_url" pkvs) as [url |] eqn:Hurl;
        [| discriminate]. cbn in Htruthy.
      apply bind_raise. rewrite (publish_with_endpoint _ _ _ _ Hurl Htruthy).
      apply bind_raise. rewrite install_twine_unbound by exact Hunbound.
      now rewrite Hunbound.
    + intros Hfalsy. apply bind_exit.
      rewrite (publish_without_endpoint _ _ _ Hfalsy). now rewrite Hunbound.
Qed.

(** ** Configuration Loader *)

(** An exit while the configuration is loaded is the exit of the script. *)
Lemma load_exit_is_script_exit (selector path : string) s (c : Z) s' :
  load_config ext path s = (Exit c, s') ->
  wheelman ext selector path s = (Exit c, s').
Proof.
  intros H. unfold wheelman, prepare. apply bind_exit. now apply bind_exit.
Qed.

(** What the loader does, case by case: it returns the value the parser
    built, it ends the process when the construction of the objects does,
    and every exception of the [try] body leaves it as [NameError] for
    [exc]. No handler prints or exits. *)
Lemma load_config_outcome (path : string) s :
  load_config ext path s
  = (match (ext_open_read ext path (world s)).1 with
     | Some content =>
         match ext_yaml_load ext content with
         | YamlValue v => Ok v
         | YamlExits code => Exit code
         | _ => Raise (NameError "exc")
         end
     | None => Raise (NameError "exc")
     end,
     State (ext_open_read ext path (world s)).2
       (trace s ++ [EPrint (Fmt "* Loading config file from %s" [VStr path]);
                    EOpen path])
       (py_exe s)).
Proof.
  unfold load_config, open_read, yaml_load, unbound. py_simpl.
  destruct (ext_open_read ext path (world s)) as [[content |] w']; cbn;
    [| reflexivity].
  destruct (ext_yaml_load ext content); reflexivity.
Qed.

(** ** Publisher: a failed upload *)

(** Once twine is imported, an upload command that returns non-zero makes
    the script look up [ExitCodes.PYPI_UPLOAD_FAILURE], which the class
    does not have: the script dies of an [AttributeError]. *)
Lemma upload_failure_raises (url : string) (u : value) (file : string) s
    (rc : Z) w' :
  ext_twine_file ext (world s) = Some file ->
  ext_run ext [ext_executable ext; file; "upload"; "--non-interactive";
               "--repository-url"; url; "dist/*"] (world s) = (Some rc, w') ->
  rc <> 0 ->
  (upload ext (VStr url) u s).1 = Raise (AttributeError "PYPI_UPLOAD_FAILURE").
Proof.
  intros Htwine Hrun Hrc. unfold upload, import_twine, run. py_simpl.
  rewrite Htwine. cbn. rewrite Hrun. cbn.
  apply Z.eqb_neq in Hrc. rewrite Hrc. py_simpl. reflexivity.
Qed.

End Properties.

(** * The properties on the scripted build agent *)

(** C3, on the code as it is. A build with credentials, an endpoint and
    [only_upload_tags] off, whose upload command returns 1: the last
    command is the upload, and the script does not exit with
    [PYPI_FAILURE = 50] but ends with an uncaught [AttributeError] for
    [ExitCodes.PYPI_UPLOAD_FAILURE], exit status 1. *)
Lemma failed_upload_ends_in_attribute_error :
  (wheelman upload_fails "windows" ".wheelman.yml" (initial 0%nat)).1
  = Raise (AttributeError "PYPI_UPLOAD_FAILURE")
  /\ exit_status (wheelman upload_fails "windows" ".wheelman.yml" (initial 0%nat)).1
     = 1
  /\ ExitCodes !! "PYPI_FAILURE" = Some 50
  /\ last (runs (trace (wheelman upload_fails "windows" ".wheelman.yml"
                          (initial 0%nat)).2))
     = Some ["python"; "twine/__main__.py"; "upload"; "--non-interactive";
             "--repository-url"; endpoint; "dist/*"].
Proof. repeat split; vm_compute; reflexivity. Qed.

Lemma failed_build_halts_later_targets_witness :
  for_each [VDict py37_entries; VDict py38_entries]
    (build_target wheel_fails (VDict two_targets)) (initial 0%nat)
  = (Exit 20,
     State 3%nat
       (trace (ready_to_build "py37"
                 (State 1%nat
                    [EPrint banner; EPrint (Lit "* Cleaning up egg-info.");
                     EFlush; ERmtree (Fmt "%s.egg-info" [VStr "pkg"])]
                    None)
                 2%nat)
        ++ [EPrint (Lit "* Doing a wheel!"); EFlush;
            ERun ["py37"; "setup.py"; "bdist_wheel"];
            EPrint (Fmt "Failed to build wheel for %s" [VStr "py37"])])
       (Some (VStr "py37")))
  /\ (build_targets wheel_fails (VDict two_targets) "windows" ;;
      publisher wheel_fails (VDict two_targets) ;;
      exit_with (A := unit) "SUCCESS") (initial 0%nat)
     = (Exit 20,
        (build_target wheel_fails (VDict two_targets) (VDict py37_entries)
           (initial 0%nat)).2).
Proof.
  destruct (failed_build_halts_later_targets wheel_fails (VDict two_targets)
              py37_entries "py37" [VDict py38_entries] (initial 0%nat)
              (State 1%nat
                 [EPrint banner; EPrint (Lit "* Cleaning up egg-info.");
                  EFlush; ERmtree (Fmt "%s.egg-info" [VStr "pkg"])]
                 None)
              2%nat) as (Hhalt & Hcodes).
  split.
  - destruct Hcodes as (_ & Hwheel);
      [reflexivity | vm_compute; reflexivity | vm_compute; reflexivity |].
    apply (Hwheel (ready_to_build "py37" _ 2%nat) 1 3%nat);
      [vm_compute; reflexivity | reflexivity | vm_compute; reflexivity
      | discriminate].
  - apply (Hhalt "windows" [] (VDict py37_entries) (initial 0%nat));
      vm_compute; reflexivity.
Defined.

Lemma no_selected_targets_no_build_witness :
  build_targets wheel_fails (VDict two_targets) "linux" (initial 0%nat)
  = (Ok tt, initial 0%nat)
  /\ build_targets wheel_fails
       (VDict [(VStr "name", VStr "pkg"); (VStr "targets", VDict [])])
       "windows" (initial 0%nat)
     = (Ok tt, initial 0%nat).
Proof.
  split.
  - exact (proj1 (no_selected_targets_no_build wheel_fails two_targets
                    [(VStr "windows",
                      VList [VDict py37_entries; VDict py38_entries])]
                    "linux" (initial 0%nat) eq_refl (or_intror eq_refl))).
  - exact (proj1 (no_selected_targets_no_build wheel_fails
                    [(VStr "name", VStr "pkg"); (VStr "targets", VDict [])]
                    [] "windows" (initial 0%nat) eq_refl (or_introl eq_refl))).
Defined.

Lemma flagless_target_only_installs_helper_witness :
  runs (trace (build_target locked_egg_info (VDict idle_target)
                 (VDict py39_entries) (initial 0%nat)).2)
  = [["py39"; "-m"; "pip"; "install"; "wheel"]].
Proof.
  exact (flagless_target_only_installs_helper locked_egg_info
           (VDict idle_target) py39_entries "py39" (initial 0%nat)
           eq_refl eq_refl eq_refl).
Defined.

Lemma egg_info_cleanup_failure_is_swallowed_witness :
  build_target locked_egg_info (VDict one_target) (VDict py38_entries)
    (initial 0%nat)
  = build_steps locked_egg_info (VDict py38_entries)
      (State 1%nat
         [EPrint banner; EPrint (Lit "* Cleaning up egg-info."); EFlush;
          ERmtree (Fmt "%s.egg-info" [VStr "pkg"])]
         None)
  /\ ["py38"; "-m"; "pip"; "install"; "wheel"]
     ∈ runs (trace (build_target locked_egg_info (VDict one_target)
                      (VDict py38_entries) (initial 0%nat)).2).
Proof.
  destruct (egg_info_cleanup_failure_is_swallowed locked_egg_info one_target
              (VStr "pkg") (VDict py38_entries) (initial 0%nat) 1%nat)
    as (_ & H).
  destruct (H eq_refl eq_refl) as (Hbody & Hinstall).
  split; [exact Hbody | exact (Hinstall py38_entries "py38" eq_refl eq_refl)].
Defined.

Lemma twine_installer_is_last_target_python_witness :
  py_exe (for_each [VDict py37_entries; VDict py38_entries]
            (build_target untagged_commit (VDict two_targets))
            (initial 0%nat)).2
  = Some (VStr "py38")
  /\ wheelman nothing_selected "windows" ".wheelman.yml" (initial 0%nat)
     = (Raise (NameError "py_exe"),
        State 3%nat
          ((prepare nothing_selected ".wheelman.yml" (initial 0%nat)).2.(trace)
           ++ [EPrint banner;
               EPrint (Lit "* Preparing to upload to twine.");
               EPrint (Lit "* Ensuring that twine is installed.");
               EFlush])
          None).
Proof.
  destruct (twine_installer_is_last_target_python nothing_selected)
    as (_ & Hempty).
  destruct (twine_installer_is_last_target_python untagged_commit)
    as (Hlast & _).
  split.
  - destruct (Hlast (VDict two_targets) [VDict py37_entries] (VDict py38_entries)
                (initial 0%nat)
                (for_each [VDict py37_entries; VDict py38_entries]
                   (build_target untagged_commit (VDict two_targets))
                   (initial 0%nat)).2)
      as (tkvs & name & Ht & Hpy & Hbound & _); [vm_compute; reflexivity |].
    injection Ht as <-. rewrite Hbound. cbn in Hpy. now rewrite <- Hpy.
  - destruct (Hempty "windows" ".wheelman.yml" 0%nat no_targets
                (pypi_entries false endpoint)
                (prepare nothing_selected ".wheelman.yml" (initial 0%nat)).2
                "u" "p" eq_refl eq_refl eq_refl eq_refl eq_refl
                (or_introl eq_refl)) as (_ & Hname & _).
    exact (Hname eq_refl).
Defined.

Lemma empty_target_url_is_missing_witness :
  publish locked_egg_info (VDict (pypi_entries false "")) (VStr "u")
    (initial 0%nat)
  = (Exit 52,
     State 0%nat
       [EPrint banner;
        EPrint (Lit "* Preparing to upload to twine.");
        EPrint (Lit "* Ensuring that twine is installed.");
        EFlush;
        EPrint (Lit "* ERROR: Missing pypi->target_url value in build.yml.")]
       None)
  /\ publish locked_egg_info (VDict (pypi_entries false "")) (VStr "u")
       (initial 0%nat)
     = publish locked_egg_info (VDict [(VStr "only_upload_tags", VBool false)])
         (VStr "u") (initial 0%nat).
Proof.
  destruct (empty_target_url_is_missing locked_egg_info (pypi_entries false "")
              [(VStr "only_upload_tags", VBool false)] (VStr "u")
              (initial 0%nat) eq_refl eq_refl) as (Hexit & Hsame & _).
  split; [exact Hexit | exact Hsame].
Defined.

(** * Further properties of the script *)

(** Reading the commands off a trace whose known events and unknown
    stretches alternate. *)
Ltac read_runs :=
  unfold runs in *;
  repeat first [rewrite omap_app | progress cbn];
  repeat match goal with H : omap _ _ = [] |- _ => rewrite H end;
  cbn; repeat rewrite app_nil_r; repeat rewrite <- app_assoc; cbn.

(** ** The exit codes of a run *)

Section ExitCodesOfARun.
Context {W : Type} (codes : list Z).

Lemma exits_within_ret {A} (a : A) : exits_within (W := W) codes (ret a).
Proof. intros s c s' H. discriminate H. Qed.

Lemma exits_within_raise {A} (e : exn) :
  exits_within (W := W) codes (raise (A := A) e).
Proof. intros s c s' H. discriminate H. Qed.

Lemma exits_within_emit (e : event) : exits_within (W := W) codes (emit e).
Proof. intros s c s' H. discriminate H. Qed.






Lemma exits_within_subscript (v : value) (k : string) :
  exits_within (W := W) codes (subscript v k).
Proof.
  destruct v; cbn; try apply exits_within_raise.
  destruct (dict_get k kvs); [apply exits_within_ret | apply exits_within_raise].
Qed.

Lemma exits_within_get_method (v : value) (k : string) (dflt : value) :
  exits_within (W := W) codes (get_method v k dflt).
Proof. destruct v; cbn; try apply exits_within_raise. apply exits_within_ret. Qed.

Lemma exits_within_iterate (v : value) : exits_within (W := W) codes (iterate v).
Proof.
  destruct v; cbn; try apply exits_within_raise; apply exits_within_ret.
Qed.

Lemma exits_within_set_py_exe (v : value) :
  exits_within (W := W) codes (set_py_exe v).
Proof. intros s c s' H. discriminate H. Qed.

Lemma exits_within_get_py_exe : exits_within (W := W) codes get_py_exe.
Proof.
  intros s c s'. unfold get_py_exe. destruct (py_exe s); discriminate.
Qed.

Context (ext : Externals W).

Lemma exits_within_open_read (path : string) :
  exits_within codes (open_read ext path).
Proof.
  intros s c s'. unfold open_read, bind, emit. cbn.
  destruct (ext_open_read ext path (world s)) as [[content |] w']; discriminate.
Qed.

Lemma exits_within_rmtree (path : text) : exits_within codes (rmtree ext path).
Proof.
  intros s c s'. unfold rmtree, bind, emit. cbn.
  destruct (ext_rmtree ext path (world s)) as [[u |] w']; discriminate.
Qed.

Lemma exits_within_copyfile (src : value) (dst : text) :
  exits_within codes (copyfile ext src dst).
Proof.
  intros s c s'. unfold copyfile, bind, emit. cbn.
  destruct (ext_copyfile ext src dst (world s)) as [[u |] w']; discriminate.
Qed.

Lemma exits_within_run (args : list value) : exits_within codes (run ext args).
Proof.
  unfold run. destruct (command args) as [cmd |]; [| apply exits_within_raise].
  intros s c s'. unfold bind, emit. cbn.
  destruct (ext_run ext cmd (world s)) as [[rc |] w']; discriminate.
Qed.

Lemma exits_within_import_twine : exits_within codes (import_twine ext).
Proof.
  intros s c s'. unfold import_twine, bind, emit. cbn.
  destruct (ext_twine_file ext (world s)); discriminate.
Qed.

End ExitCodesOfARun.

Create HintDb exits.
#[global] Hint Resolve exits_within_ret exits_within_raise exits_within_emit
  exits_within_subscript exits_within_get_method exits_within_iterate
  exits_within_set_py_exe exits_within_get_py_exe exits_within_open_read
  exits_within_rmtree exits_within_copyfile
  exits_within_run exits_within_import_twine : exits.




Section ExitCodesOfTheScript.
Context {W : Type} (ext : Externals W).
Implicit Types (s : state W) (config target : value).








End ExitCodesOfTheScript.

(** ** Loading the configuration and preparing the environment *)

Section Preparation.
Context {W : Type} (ext : Externals W).
Implicit Types (s : state W) (config target : value).
Implicit Types (kvs pkvs tkvs : list (value * value)).


Lemma clean_dist_returns s :
  exists w',
    clean_dist ext s
    = (Ok tt,
       State w'
         (trace s ++ [EPrint banner; EPrint (Lit "* Prepping environment.");
                      EPrint (Lit "* Deleting potential leftover dist folder.");
                      ERmtree (Lit "dist")])
         (py_exe s)).
Proof.
  unfold clean_dist, rmtree. py_simpl.
  destruct (ext_rmtree ext (Lit "dist") (world s)) as [[[] |] w'];
    exists w'; reflexivity.
Qed.

(** X4. The removal of the [dist] folder is attempted once and never stops the
    script, whether it succeeds or not: the environment preparation
    returns normally from every state, having printed its three lines and
    tried the removal, and [py_exe] is as before. *)
Theorem clean_dist_always_returns s :
  exists w',
    clean_dist ext s
    = (Ok tt,
       State w'
         (trace s ++ [EPrint banner; EPrint (Lit "* Prepping environment.");
                      EPrint (Lit "* Deleting potential leftover dist folder.");
                      ERmtree (Lit "dist")])
         (py_exe s)).
Proof. exact (clean_dist_returns s). Qed.

(** One round of the loop over the include files, for a configuration with
    a [name]. *)
Lemma copy_one kvs (pkg name : value) s :
  dict_get "name" kvs = Some pkg ->
  (pkg <- subscript (VDict kvs) "name" ;;
   print (Fmt "* Copying file %s into folder %s" [name; pkg]) ;;
   pkg <- subscript (VDict kvs) "name" ;;
   copyfile ext name (Fmt "%s/%s" [pkg; name])) s
  = (match (ext_copyfile ext name (Fmt "%s/%s" [pkg; name]) (world s)).1 with
     | Some _ => Ok tt
     | None => Raise OSError
     end,
     State (ext_copyfile ext name (Fmt "%s/%s" [pkg; name]) (world s)).2
       (trace s ++ [EPrint (Fmt "* Copying file %s into folder %s" [name; pkg]);
                    ECopyfile name (Fmt "%s/%s" [pkg; name])])
       (py_exe s)).
Proof.
  intros Hname. unfold copyfile. py_simpl. rewrite Hname. py_simpl.
  now destruct (ext_copyfile ext name (Fmt "%s/%s" [pkg; name]) (world s))
    as [[[] |] w'].
Qed.

Lemma copy_loop kvs (pkg : value) (names : list value) s :
  dict_get "name" kvs = Some pkg ->
  (forall src dst w, src ∈ names -> (ext_copyfile ext src dst w).1 = Some tt) ->
  exists s',
    for_each names (fun name =>
      pkg <- subscript (VDict kvs) "name" ;;
      print (Fmt "* Copying file %s into folder %s" [name; pkg]) ;;
      pkg <- subscript (VDict kvs) "name" ;;
      copyfile ext name (Fmt "%s/%s" [pkg; name])) s
    = (Ok tt, s')
    /\ copies (trace s') = copies (trace s) ++ map (include_copy pkg) names
    /\ runs (trace s') = runs (trace s)
    /\ py_exe s' = py_exe s.
Proof.
  intros Hname. revert s.
  induction names as [| name names IH]; intros s Hcopy.
  - exists s. cbn. now rewrite app_nil_r.
  - cbn [for_each]. unfold bind at 1. rewrite (copy_one _ _ _ _ Hname).
    rewrite (Hcopy name _ _ (list_elem_of_here _ _)).
    destruct (IH (State (ext_copyfile ext name (Fmt "%s/%s" [pkg; name]) (world s)).2
                    (trace s ++ [EPrint (Fmt "* Copying file %s into folder %s"
                                           [name; pkg]);
                                 ECopyfile name (Fmt "%s/%s" [pkg; name])])
                    (py_exe s)))
      as (s' & Hloop & Hcopies & Hruns & Hpy).
    { intros src dst w Hin. apply Hcopy. now apply list_elem_of_further. }
    exists s'. split; [exact Hloop |]. cbn in *.
    rewrite Hcopies, Hruns, Hpy. unfold copies, runs. rewrite !omap_app. cbn.
    rewrite !app_nil_r, <- app_assoc. now cbn.
Qed.

(** X5. When every copy succeeds, the include files are copied one after the
    other, in the order of the configuration, each to [<name>/<file>];
    nothing else is copied and no command is run. *)
Theorem include_files_are_copied_in_order kvs (pkg : value)
    (names : list value) s :
  dict_get "name" kvs = Some pkg ->
  dict_get "include_files" kvs = Some (VList names) ->
  (forall src dst w, src ∈ names -> (ext_copyfile ext src dst w).1 = Some tt) ->
  exists s',
    copy_include_files ext (VDict kvs) s = (Ok tt, s')
    /\ copies (trace s') = copies (trace s) ++ map (include_copy pkg) names
    /\ runs (trace s') = runs (trace s).
Proof.
  intros Hname Hfiles Hcopy.
  destruct (copy_loop kvs pkg names s Hname Hcopy)
    as (s' & Hloop & Hcopies & Hruns & _).
  exists s'. split; [| now split].
  unfold copy_include_files, subscript, iterate. unfold bind at 1.
  rewrite Hfiles. unfold ret at 1. unfold bind at 1. unfold ret at 1.
  exact Hloop.
Qed.

(** X6. The copy of the include files is not best effort: the first copy that
    fails ends the script with the uncaught [OSError], and the files listed
    after it are never touched. *)
Theorem failed_copy_stops_the_script kvs (pkg name : value)
    (before after : list value) s :
  dict_get "name" kvs = Some pkg ->
  dict_get "include_files" kvs = Some (VList (before ++ name :: after)) ->
  (forall src dst w, src ∈ before -> (ext_copyfile ext src dst w).1 = Some tt) ->
  (forall dst w, (ext_copyfile ext name dst w).1 = None) ->
  exists s',
    copy_include_files ext (VDict kvs) s = (Raise OSError, s')
    /\ copies (trace s')
       = copies (trace s) ++ map (include_copy pkg) (before ++ [name]).
Proof.
  intros Hname Hfiles Hbefore Hfail.
  destruct (copy_loop kvs pkg before s Hname Hbefore)
    as (s1 & Hloop & Hcopies & _ & _).
  exists (State (ext_copyfile ext name (Fmt "%s/%s" [pkg; name]) (world s1)).2
            (trace s1 ++ [EPrint (Fmt "* Copying file %s into folder %s"
                                    [name; pkg]);
                          ECopyfile name (Fmt "%s/%s" [pkg; name])])
            (py_exe s1)).
  split.
  - unfold copy_include_files, subscript, iterate. unfold bind at 1.
    rewrite Hfiles. unfold ret at 1. unfold bind at 1. unfold ret at 1.
    rewrite (for_each_app _ _ _ _ _ Hloop). cbn [for_each].
    apply bind_raise. rewrite (copy_one _ _ _ _ Hname). now rewrite Hfail.
  - cbn. unfold copies in *. rewrite !omap_app, Hcopies, map_app. cbn.
    now rewrite <- app_assoc.
Qed.

(** X7. A configuration that is not a mapping (an empty document loads as
    [None]) or that has no [include_files] entry is not a configuration
    error for the script. The configuration is loaded, the [dist] folder
    is removed as for any run, and then the first lookup ends the script
    with the uncaught [TypeError] or [KeyError], exit status 1: the trace
    ends with the attempt on [dist], nothing is copied and no command is
    run. *)
Theorem config_without_include_files (selector path content : string)
    (v : value) s w' :
  ext_open_read ext path (world s) = (Some content, w') ->
  ext_yaml_load ext content = YamlValue v ->
  match v with
  | VDict kvs => dict_get "include_files" kvs = None
  | _ => True
  end ->
  wheelman ext selector path s
  = (Raise (match v with VDict _ => KeyError "include_files" | _ => TypeError end),
     State (ext_rmtree ext (Lit "dist") w').2
       (trace s
        ++ [EPrint (Fmt "* Loading config file from %s" [VStr path]);
            EOpen path;
            EPrint banner; EPrint (Lit "* Prepping environment.");
            EPrint (Lit "* Deleting potential leftover dist folder.");
            ERmtree (Lit "dist")])
       (py_exe s))
  /\ exit_status (wheelman ext selector path s).1 = 1.
Proof.
  intros Hopen Hyaml Hshape.
  assert (Hload : load_config ext path s
    = (Ok v,
       State w'
         (trace s ++ [EPrint (Fmt "* Loading config file from %s" [VStr path]);
                      EOpen path])
         (py_exe s))).
  { rewrite load_config_outcome, Hopen. cbn. now rewrite Hyaml. }
  assert (Hrun : wheelman ext selector path s
    = (Raise (match v with VDict _ => KeyError "include_files" | _ => TypeError end),
       State (ext_rmtree ext (Lit "dist") w').2
         (trace s
          ++ [EPrint (Fmt "* Loading config file from %s" [VStr path]);
              EOpen path;
              EPrint banner; EPrint (Lit "* Prepping environment.");
              EPrint (Lit "* Deleting potential leftover dist folder.");
              ERmtree (Lit "dist")])
         (py_exe s))).
  { unfold wheelman, prepare. apply bind_raise.
    rewrite (bind_ok _ _ _ _ _ Hload).
    assert (Hclean : clean_dist ext
        (State w'
           (trace s ++ [EPrint (Fmt "* Loading config file from %s" [VStr path]);
                        EOpen path])
           (py_exe s))
      = (Ok tt,
         State (ext_rmtree ext (Lit "dist") w').2
           (trace s
            ++ [EPrint (Fmt "* Loading config file from %s" [VStr path]);
                EOpen path;
                EPrint banner; EPrint (Lit "* Prepping environment.");
                EPrint (Lit "* Deleting potential leftover dist folder.");
                ERmtree (Lit "dist")])
           (py_exe s))).
    { unfold clean_dist, rmtree. py_simpl.
      now destruct (ext_rmtree ext (Lit "dist") w') as [[[] |] w2]. }
    rewrite (bind_ok _ _ _ _ _ Hclean).
    apply bind_raise. unfold copy_include_files. apply bind_raise.
    destruct v; try reflexivity. cbn. now rewrite Hshape. }
  rewrite Hrun. now split.
Qed.

End Preparation.

(** ** Building the targets *)

Section Building.
Context {W : Type} (ext : Externals W).
Implicit Types (s : state W) (config target : value).
Implicit Types (kvs pkvs tkvs : list (value * value)).

(** X8. The metadata folder is dealt with before anything else of a target:
    for a configuration with a [name] and a target with a string for
    [python], the trace of the loop body starts with the removal of
    [<name>.egg-info] and only then comes the first command, the
    installation of the helper. *)
Theorem cleanup_precedes_the_build kvs (pkg : value) tkvs (py : string) s :
  dict_get "name" kvs = Some pkg ->
  dict_get "python" tkvs = Some (VStr py) ->
  exists tr,
    trace (build_target ext (VDict kvs) (VDict tkvs) s).2
    = trace s
      ++ [EPrint banner; EPrint (Lit "* Cleaning up egg-info."); EFlush;
          ERmtree (Fmt "%s.egg-info" [pkg]);
          EPrint banner;
          EPrint (Fmt "* Preparing environment for %s now." [VStr py]);
          EFlush;
          ERun [py; "-m"; "pip"; "install"; "wheel"]]
      ++ tr.
Proof.
  intros Hname Hpy.
  assert (Hbody : build_target ext (VDict kvs) (VDict tkvs) s
    = build_steps ext (VDict tkvs)
        (State (ext_rmtree ext (Fmt "%s.egg-info" [pkg]) (world s)).2
           (trace s ++ [EPrint banner; EPrint (Lit "* Cleaning up egg-info.");
                        EFlush; ERmtree (Fmt "%s.egg-info" [pkg])])
           (py_exe s))).
  { unfold build_target, clean_egg_info, rmtree. py_simpl. rewrite Hname. cbn.
    destruct (ext_rmtree ext (Fmt "%s.egg-info" [pkg]) (world s))
      as [[[] |] w']; py_simpl; reflexivity. }
  rewrite Hbody.
  destruct (build_steps_install_helper ext tkvs py
              (State (ext_rmtree ext (Fmt "%s.egg-info" [pkg]) (world s)).2
                 (trace s ++ [EPrint banner;
                              EPrint (Lit "* Cleaning up egg-info.");
                              EFlush; ERmtree (Fmt "%s.egg-info" [pkg])])
                 (py_exe s)) Hpy) as [tr Htr].
  exists tr. rewrite Htr. cbn. now rewrite <- !app_assoc.
Qed.

(** X9. A target that is not a mapping, or that has no [python] entry, ends
    the script with the uncaught [TypeError] or [KeyError] of the lookup.
    By then the cleanup of the target has been done and no command has
    been run: for a configuration with a [name] the trace ends with the
    attempt to remove [<name>.egg-info]. *)
Theorem target_without_python config target s :
  match target with
  | VDict tkvs => dict_get "python" tkvs = None
  | _ => True
  end ->
  ((build_target ext config target s).1
   = Raise (match target with VDict _ => KeyError "python" | _ => TypeError end)
   /\ runs (trace (build_target ext config target s).2) = runs (trace s))
  /\ forall kvs (pkg : value),
       config = VDict kvs ->
       dict_get "name" kvs = Some pkg ->
       build_target ext config target s
       = (Raise (match target with
                 | VDict _ => KeyError "python"
                 | _ => TypeError
                 end),
          State (ext_rmtree ext (Fmt "%s.egg-info" [pkg]) (world s)).2
            (trace s ++ [EPrint banner; EPrint (Lit "* Cleaning up egg-info.");
                         EFlush; ERmtree (Fmt "%s.egg-info" [pkg])])
            (py_exe s)).
Proof.
  intros Hshape. split.
  - destruct (build_target_after_cleanup ext config target s)
      as (w' & tr & -> & Hruns).
    unfold build_steps, subscript, bind.
    destruct target as [| | | | | tkvs]; cbn;
      try (split; [reflexivity | now read_runs]).
    rewrite Hshape. cbn. split; [reflexivity | now read_runs].
  - intros kvs pkg -> Hname.
    unfold build_target, clean_egg_info, rmtree, build_steps. py_simpl.
    rewrite Hname. cbn.
    destruct (ext_rmtree ext (Fmt "%s.egg-info" [pkg]) (world s))
      as [[[] |] w']; cbn;
      (destruct target as [| | | | | tkvs]; cbn;
       [| | | | | rewrite Hshape]; py_simpl; reflexivity).
Qed.

(** X10. The helper that cannot be installed ends the script before any build
    command: with exit code 30 when [pip] returns non-zero, with the
    uncaught [OSError] when the interpreter cannot be started. The only
    command run for the target is the installation. *)
Theorem failed_helper_install config tkvs (py : string) (after : list value)
    (answer : option Z) s :
  dict_get "python" tkvs = Some (VStr py) ->
  (forall w, (ext_run ext [py; "-m"; "pip"; "install"; "wheel"] w).1 = answer) ->
  answer <> Some 0 ->
  (for_each (VDict tkvs :: after) (build_target ext config) s).1
  = match answer with Some _ => Exit 30 | None => Raise OSError end
  /\ runs (trace (for_each (VDict tkvs :: after) (build_target ext config) s).2)
     = runs (trace s) ++ [[py; "-m"; "pip"; "install"; "wheel"]].
Proof.
  intros Hpy Hrun Hanswer.
  assert (Htarget :
    (build_target ext config (VDict tkvs) s).1
    = match answer with Some _ => Exit 30 | None => Raise OSError end
    /\ runs (trace (build_target ext config (VDict tkvs) s).2)
       = runs (trace s) ++ [[py; "-m"; "pip"; "install"; "wheel"]]).
  { destruct (build_target_after_cleanup ext config (VDict tkvs) s)
      as (w' & tr & -> & Hruns).
    unfold build_steps, install_wheel_helper, run. py_simpl. rewrite Hpy. cbn.
    specialize (Hrun w').
    destruct (ext_run ext [py; "-m"; "pip"; "install"; "wheel"] w')
      as [[rc |] w'']; cbn in *; subst answer.
    - destruct (Z.eqb_spec rc 0) as [-> | Hrc]; [now destruct Hanswer |].
      py_simpl. split; [reflexivity | now read_runs].
    - split; [reflexivity | now read_runs]. }
  rewrite for_each_halts; [exact Htarget |].
  destruct Htarget as [-> _]. now destruct answer.
Qed.

(** One target in a world where every command returns 0. *)
Lemma build_target_succeeds config tkvs (py : string) s :
  dict_get "python" tkvs = Some (VStr py) ->
  (forall cmd w, (ext_run ext cmd w).1 = Some 0) ->
  exists s',
    build_target ext config (VDict tkvs) s = (Ok tt, s')
    /\ runs (trace s') = runs (trace s) ++ target_commands py tkvs
    /\ py_exe s' = Some (VStr py).
Proof.
  intros Hpy Hrun.
  destruct (build_target_after_cleanup ext config (VDict tkvs) s)
    as (w' & tr & -> & Hruns).
  unfold build_steps, install_wheel_helper, build_sdist, build_wheel, run,
    target_commands, build_flag.
  py_simpl. rewrite Hpy. cbn.
  pose proof (Hrun [py; "-m"; "pip"; "install"; "wheel"] w') as Hinstall.
  destruct (ext_run ext [py; "-m"; "pip"; "install"; "wheel"] w')
    as [[rc |] w1]; cbn in Hinstall; [| discriminate].
  injection Hinstall as ->. cbn.
  destruct (truthy (default (VBool false) (dict_get "sdist" tkvs))); cbn.
  - pose proof (Hrun [py; "setup.py"; "sdist"] w1) as Hsdist.
    destruct (ext_run ext [py; "setup.py"; "sdist"] w1)
      as [[rc |] w2]; cbn in Hsdist; [| discriminate].
    injection Hsdist as ->. cbn.
    destruct (truthy (default (VBool false) (dict_get "wheel" tkvs))); cbn.
    + pose proof (Hrun [py; "setup.py"; "bdist_wheel"] w2) as Hwheel.
      destruct (ext_run ext [py; "setup.py"; "bdist_wheel"] w2)
        as [[rc |] w3]; cbn in Hwheel; [| discriminate].
      injection Hwheel as ->. cbn.
      eexists. split; [reflexivity |]. split; [now read_runs | reflexivity].
    + eexists. split; [reflexivity |]. split; [now read_runs | reflexivity].
  - destruct (truthy (default (VBool false) (dict_get "wheel" tkvs))); cbn.
    + pose proof (Hrun [py; "setup.py"; "bdist_wheel"] w1) as Hwheel.
      destruct (ext_run ext [py; "setup.py"; "bdist_wheel"] w1)
        as [[rc |] w3]; cbn in Hwheel; [| discriminate].
      injection Hwheel as ->. cbn.
      eexists. split; [reflexivity |]. split; [now read_runs | reflexivity].
    + eexists. split; [reflexivity |]. split; [now read_runs | reflexivity].
Qed.

(** The loop over a group in a world where every command returns 0. *)
Lemma build_loop_succeeds config
    (group : list (string * list (value * value))) s :
  Forall (fun t => dict_get "python" t.2 = Some (VStr t.1)) group ->
  (forall cmd w, (ext_run ext cmd w).1 = Some 0) ->
  exists s',
    for_each (map (fun t => VDict t.2) group) (build_target ext config) s
    = (Ok tt, s')
    /\ runs (trace s')
       = runs (trace s) ++ concat (map (fun t => target_commands t.1 t.2) group)
    /\ py_exe s' = match last_python group with
                   | Some py => Some py
                   | None => py_exe s
                   end.
Proof.
  intros Hgroup Hrun. revert s.
  induction Hgroup as [| [py tkvs] group Hpy _ IH]; intros s.
  - exists s. cbn. now rewrite app_nil_r.
  - cbn [map for_each]. cbn in Hpy.
    destruct (build_target_succeeds config tkvs py s Hpy Hrun)
      as (s1 & Hfirst & Hruns1 & Hpy1).
    destruct (IH s1) as (s' & Hrest & Hruns & Hlast).
    exists s'. split; [now rewrite (bind_ok _ _ _ _ _ Hfirst) |].
    split.
    + rewrite Hruns, Hruns1. cbn [map concat]. now rewrite <- !app_assoc.
    + rewrite Hlast, Hpy1. unfold last_python.
      destruct group as [| t group']; [reflexivity |].
      rewrite last_cons_cons.
      destruct (last (t :: group')) as [t' |] eqn:Hlast'; [reflexivity |].
      apply last_None in Hlast'. discriminate.
Qed.

(** X11. When every command returns 0, the loop builds the whole group: the
    commands run are those of the targets, target after target in the
    order of the configuration, each target installing the helper first,
    then the source distribution if asked for, then the wheel if asked
    for; [py_exe] ends as the interpreter of the last target. *)
Theorem group_is_built_in_order config
    (group : list (string * list (value * value))) s :
  Forall (fun t => dict_get "python" t.2 = Some (VStr t.1)) group ->
  (forall cmd w, (ext_run ext cmd w).1 = Some 0) ->
  exists s',
    for_each (map (fun t => VDict t.2) group) (build_target ext config) s
    = (Ok tt, s')
    /\ runs (trace s')
       = runs (trace s) ++ concat (map (fun t => target_commands t.1 t.2) group)
    /\ py_exe s' = match last_python group with
                   | Some py => Some py
                   | None => py_exe s
                   end.
Proof. intros Hgroup Hrun. now apply build_loop_succeeds. Qed.

(** X12. A configuration without a [targets] entry is an error, unlike one
    whose [targets] mapping lacks the selected group: the loop dies of the
    uncaught [KeyError] before it starts; a [targets] entry that is not a
    mapping gives the [AttributeError] of the missing [get]. *)
Theorem config_without_targets kvs (selector : string) s :
  match dict_get "targets" kvs with
  | Some (VDict _) => False
  | _ => True
  end ->
  build_targets ext (VDict kvs) selector s
  = (Raise (match dict_get "targets" kvs with
            | Some _ => AttributeError "get"
            | None => KeyError "targets"
            end), s).
Proof.
  intros Hshape. unfold build_targets, selected_targets. py_simpl.
  destruct (dict_get "targets" kvs) as [[] |]; try reflexivity.
  destruct Hshape.
Qed.

End Building.

(** ** Publishing *)

Section Publishing.
Context {W : Type} (ext : Externals W).
Implicit Types (s : state W) (config target : value).
Implicit Types (kvs pkvs tkvs : list (value * value)).

(** X13. Without both credentials in the environment the Publisher touches
    nothing outside the script: whatever the configuration is, it runs no
    command and leaves the world as it was. *)
Theorem no_command_without_credentials config s :
  ext_environ ext !! "TWINE_USERNAME" = None
  \/ ext_environ ext !! "TWINE_PASSWORD" = None ->
  world (publisher ext config s).2 = world s
  /\ runs (trace (publisher ext config s).2) = runs (trace s).
Proof.
  intros Hcred. unfold publisher, get_method, bind, ret, environ_get.
  destruct config as [| | | | | kvs]; try (split; reflexivity).
  destruct (default (VDict []) (dict_get "pypi" kvs)) as [| | | | | pkvs];
    try (split; reflexivity).
  destruct (ext_environ ext !! "TWINE_USERNAME") as [un |],
           (ext_environ ext !! "TWINE_PASSWORD") as [pw |];
    cbn -[default truthy].
  - destruct Hcred; discriminate.
  - autorewrite with exitcodes. cbn. split; [reflexivity | now read_runs].
  - autorewrite with exitcodes. cbn. split; [reflexivity | now read_runs].
  - split; [reflexivity | now read_runs].
Qed.

(** X14. A configuration without a [pypi] section uploads on tags only and has
    no endpoint: with both credentials, a run whose APPVEYOR_REPO_TAG is
    exactly [true] exits with 52; any other run prints the info message
    and goes on. *)
Theorem publisher_without_pypi_section kvs (un pw : string) s :
  dict_get "pypi" kvs = None ->
  ext_environ ext !! "TWINE_USERNAME" = Some un ->
  ext_environ ext !! "TWINE_PASSWORD" = Some pw ->
  (ext_environ ext !! "APPVEYOR_REPO_TAG" = Some "true" ->
   publisher ext (VDict kvs) s
   = (Exit 52,
      State (world s)
        (trace s ++ [EPrint banner;
                     EPrint (Lit "* Preparing to upload to twine.");
                     EPrint (Lit "* Ensuring that twine is installed.");
                     EFlush;
                     EPrint (Lit "* ERROR: Missing pypi->target_url value in build.yml.")])
        (py_exe s)))
  /\ (ext_environ ext !! "APPVEYOR_REPO_TAG" <> Some "true" ->
      publisher ext (VDict kvs) s
      = (Ok tt,
         State (world s)
           (trace s ++ [EPrint banner;
                        EPrint (Lit "* INFO: Not uploading to pypi."); EFlush])
           (py_exe s))).
Proof.
  intros Hpypi Hu Hp.
  assert (Hstart : publisher ext (VDict kvs) s
    = (if is_tag ext then publish ext (VDict []) (VStr un) else skip_upload) s).
  { unfold publisher, get_method, bind, ret, environ_get.
    rewrite Hpypi, Hu, Hp. cbn. now destruct (is_tag ext). }
  rewrite Hstart. split.
  - intros Htag.
    assert (Hyes : is_tag ext = true) by (unfold is_tag; now rewrite Htag).
    rewrite Hyes. now apply publish_without_endpoint.
  - intros Htag.
    assert (Hno : is_tag ext = false).
    { unfold is_tag.
      destruct (ext_environ ext !! "APPVEYOR_REPO_TAG") as [tag |];
        [| reflexivity].
      cbn. destruct (String.eqb_spec tag "true") as [-> | _];
        [now destruct Htag | reflexivity]. }
    rewrite Hno. apply skip_upload_spec.
Qed.

(** X15. What the installation of twine leaves behind when it does not
    return 0. When [pip] returns non-zero the script prints that it failed
    to ensure that twine is installed and exits with 30; when the
    interpreter cannot be started the [OSError] goes uncaught. In both
    cases the installation is the last command: nothing is uploaded. *)
Theorem failed_twine_install pkvs (url u : value) (py : string)
    (answer : option Z) s w' :
  dict_get "target_url" pkvs = Some url ->
  truthy url = true ->
  py_exe s = Some (VStr py) ->
  ext_run ext [py; "-m"; "pip"; "install"; "twine"] (world s) = (answer, w') ->
  answer <> Some 0 ->
  publish ext (VDict pkvs) u s
  = (match answer with Some _ => Exit 30 | None => Raise OSError end,
     State w'
       (trace s
        ++ [EPrint banner;
            EPrint (Lit "* Preparing to upload to twine.");
            EPrint (Lit "* Ensuring that twine is installed.");
            EFlush;
            ERun [py; "-m"; "pip"; "install"; "twine"]]
        ++ match answer with
           | Some _ =>
               [EPrint (Lit "* ERROR: Failed to ensure that twine is installed.")]
           | None => []
           end)
       (py_exe s)).
Proof.
  intros Hurl Htruthy Hpy Hrun Hanswer.
  rewrite (publish_with_endpoint ext _ _ _ _ Hurl Htruthy).
  unfold install_twine, run. py_simpl. rewrite Hpy. cbn. rewrite Hrun.
  destruct answer as [rc |]; cbn.
  - destruct (Z.eqb_spec rc 0) as [-> | Hrc]; [now destruct Hanswer |].
    py_simpl. reflexivity.
  - py_simpl. reflexivity.
Qed.

(** X16. When twine is installed but cannot be imported by the running
    interpreter, the script prints that it could not import twine and then
    looks up [ExitCodes.ERROR_MISSING_DEPENDENCIES], which the class does
    not have: it ends with the uncaught [AttributeError], and nothing is
    uploaded. *)
Theorem unimportable_twine pkvs (url u : value) (py : string) s w1 :
  dict_get "target_url" pkvs = Some url ->
  truthy url = true ->
  py_exe s = Some (VStr py) ->
  ext_run ext [py; "-m"; "pip"; "install"; "twine"] (world s) = (Some 0, w1) ->
  ext_twine_file ext w1 = None ->
  publish ext (VDict pkvs) u s
  = (Raise (AttributeError "ERROR_MISSING_DEPENDENCIES"),
     State w1
       (trace s ++ [EPrint banner;
                    EPrint (Lit "* Preparing to upload to twine.");
                    EPrint (Lit "* Ensuring that twine is installed.");
                    EFlush;
                    ERun [py; "-m"; "pip"; "install"; "twine"];
                    EImportTwine;
                    EPrint (Lit "* ERROR: Couldn't import twine.")])
       (py_exe s)).
Proof.
  intros Hurl Htruthy Hpy Hrun Htwine.
  rewrite (publish_with_endpoint ext _ _ _ _ Hurl Htruthy).
  unfold install_twine, upload, import_twine, run. py_simpl.
  rewrite Hpy. cbn. rewrite Hrun. cbn. rewrite Htwine. py_simpl.
  reflexivity.
Qed.

(** The upload in a world where it succeeds. *)
Lemma publish_succeeds pkvs (url : string) (u : value) (py file : string) s :
  dict_get "target_url" pkvs = Some (VStr url) ->
  url <> "" ->
  py_exe s = Some (VStr py) ->
  (forall cmd w, (ext_run ext cmd w).1 = Some 0) ->
  (forall w, ext_twine_file ext w = Some file) ->
  exists s',
    publish ext (VDict pkvs) u s = (Ok tt, s')
    /\ runs (trace s')
       = runs (trace s)
         ++ [[py; "-m"; "pip"; "install"; "twine"];
             [ext_executable ext; file; "upload"; "--non-interactive";
              "--repository-url"; url; "dist/*"]]
    /\ py_exe s' = Some (VStr (ext_executable ext)).
Proof.
  intros Hurl Hne Hpy Hrun Htwine.
  assert (Htruthy : truthy (VStr url) = true).
  { cbn. now destruct (String.eqb_spec url ""). }
  rewrite (publish_with_endpoint ext _ _ _ _ Hurl Htruthy).
  unfold install_twine, upload, import_twine, run. py_simpl. rewrite Hpy. cbn.
  pose proof (Hrun [py; "-m"; "pip"; "install"; "twine"] (world s)) as Hinstall.
  destruct (ext_run ext [py; "-m"; "pip"; "install"; "twine"] (world s))
    as [[rc |] w1]; cbn in Hinstall; [| discriminate].
  injection Hinstall as ->. cbn. rewrite Htwine. cbn.
  pose proof (Hrun [ext_executable ext; file; "upload"; "--non-interactive";
                    "--repository-url"; url; "dist/*"] w1) as Hupload.
  destruct (ext_run ext [ext_executable ext; file; "upload"; "--non-interactive";
                         "--repository-url"; url; "dist/*"] w1)
    as [[rc |] w2]; cbn in Hupload; [| discriminate].
  injection Hupload as ->. cbn.
  eexists. split; [reflexivity |]. split; [now read_runs | reflexivity].
Qed.



(** X17. The upload is run by the interpreter that runs the script, not by the
    interpreter of a target: once twine is installed with the last
    target's interpreter, the one upload command is
    [<sys.executable> <twine> upload --non-interactive --repository-url
    <endpoint> dist/*], and [py_exe] is rebound to [sys.executable]. *)
Theorem upload_uses_the_running_interpreter pkvs (url : string) (u : value)
    (py file : string) s :
  dict_get "target_url" pkvs = Some (VStr url) ->
  url <> "" ->
  py_exe s = Some (VStr py) ->
  (forall cmd w, (ext_run ext cmd w).1 = Some 0) ->
  (forall w, ext_twine_file ext w = Some file) ->
  exists s',
    publish ext (VDict pkvs) u s = (Ok tt, s')
    /\ runs (trace s')
       = runs (trace s)
         ++ [[py; "-m"; "pip"; "install"; "twine"];
             [ext_executable ext; file; "upload"; "--non-interactive";
              "--repository-url"; url; "dist/*"]]
    /\ py_exe s' = Some (VStr (ext_executable ext)).
Proof. intros. now apply publish_succeeds. Qed.

(** X18. A whole release. From a prepared configuration whose selected group is
    a non-empty list of targets with an interpreter each, with an endpoint,
    both credentials and the upload due, in a world where every command
    returns 0 and twine can be imported: the script exits with 0, and the
    commands it ran are those of the targets in order, then the
    installation of twine with the interpreter of the last target, then
    the one upload of [dist/*]. *)
Theorem release_builds_then_uploads (selector path : string)
    kvs tkvs pkvs (group : list (string * list (value * value)))
    (url un pw file : string) s s1 :
  prepare ext path s = (Ok (VDict kvs), s1) ->
  dict_get "targets" kvs = Some (VDict tkvs) ->
  dict_get selector tkvs = Some (VList (map (fun t => VDict t.2) group)) ->
  Forall (fun t => dict_get "python" t.2 = Some (VStr t.1)) group ->
  group <> [] ->
  default (VDict []) (dict_get "pypi" kvs) = VDict pkvs ->
  dict_get "target_url" pkvs = Some (VStr url) ->
  url <> "" ->
  ext_environ ext !! "TWINE_USERNAME" = Some un ->
  ext_environ ext !! "TWINE_PASSWORD" = Some pw ->
  truthy (default (VBool true) (dict_get "only_upload_tags" pkvs)) = false
  \/ is_tag ext = true ->
  (forall cmd w, (ext_run ext cmd w).1 = Some 0) ->
  (forall w, ext_twine_file ext w = Some file) ->
  exists s' (py : string),
    wheelman ext selector path s = (Exit 0, s')
    /\ last_python group = Some (VStr py)
    /\ runs (trace s')
       = runs (trace s1)
         ++ concat (map (fun t => target_commands t.1 t.2) group)
         ++ [[py; "-m"; "pip"; "install"; "twine"];
             [ext_executable ext; file; "upload"; "--non-interactive";
              "--repository-url"; url; "dist/*"]].
Proof.
  intros Hprep Htargets Hsel Hgroup Hne Hpypi Hurl Hurl' Hu Hp Hdue Hrun Htwine.
  destruct (build_loop_succeeds ext (VDict kvs) group s1 Hgroup Hrun)
    as (s2 & Hloop & Hruns2 & Hpy2).
  assert (Hlast : exists py : string, last_python group = Some (VStr py)).
  { unfold last_python. destruct (last group) as [t |] eqn:Hlast.
    - now exists t.1.
    - apply last_None in Hlast. now destruct Hne. }
  destruct Hlast as [py Hlast]. rewrite Hlast in Hpy2.
  destruct (publish_succeeds pkvs url (VStr un) py file s2 Hurl Hurl' Hpy2
              Hrun Htwine) as (s3 & Hpub & Hruns3 & _).
  exists s3, py. split; [| split; [exact Hlast |]].
  - unfold wheelman. rewrite (bind_ok _ _ _ _ _ Hprep).
    assert (Hbuild : build_targets ext (VDict kvs) selector s1 = (Ok tt, s2)).
    { unfold build_targets, selected_targets, iterate. py_simpl.
      rewrite Htargets. cbn. rewrite Hsel. cbn. exact Hloop. }
    rewrite (bind_ok _ _ _ _ _ Hbuild).
    rewrite (bind_ok _ _ _ tt s3); [apply exit_success |].
    now rewrite (publisher_upload_branch ext _ _ _ _ _ Hpypi Hu Hp Hdue).
  - rewrite Hruns3, Hruns2. now rewrite <- !app_assoc.
Qed.

End Publishing.

(** ** Before the configuration is loaded *)

Section Prelude.
Context {W : Type}.
Implicit Types (s : state W) (globals : gset string).

(** X19. The statements before the configuration is loaded only get through
    when both [sys] and [args] are bound before the script starts: the
    script uses [sys] before it imports it and reads [args] without ever
    binding it. *)
Theorem prelude_needs_sys_and_args globals (importable : string -> bool)
    (traceback : string) s s' :
  prelude globals importable traceback s = (Ok tt, s') ->
  "sys" ∈ globals /\ "args" ∈ globals.
Proof.
  unfold prelude, use_name. py_unfold. cbn.
  destruct (bool_decide ("sys" ∈ globals)) eqn:Hsys; [| discriminate].
  apply bool_decide_eq_true in Hsys. cbn.
  repeat match goal with
         | |- context [import_module importable ?m] =>
             unfold import_module at 1; destruct (importable m); cbn
         end;
    autorewrite with exitcodes; cbn; try discriminate.
  destruct (bool_decide ("args" ∈ globals)) eqn:Hargs; [| discriminate].
  apply bool_decide_eq_true in Hargs. now intros _.
Qed.

(** X20. The three opening statements, run from a namespace without [sys]:
    the two opening lines are printed and the third statement raises
    [NameError] for [sys], so that nothing is imported, parsed or loaded.
    (This is of an interpreter that accepts the file, see the head of
    this file.) *)
Theorem prelude_stops_at_sys globals (importable : string -> bool)
    (traceback : string) s :
  "sys" ∉ globals ->
  prelude globals importable traceback s
  = (Raise (NameError "sys"),
     State (world s)
       (trace s ++ [EPrint banner; EPrint (Lit "* Initializing Wheelman.")])
       (py_exe s)).
Proof.
  intros Hsys. unfold prelude, use_name. py_unfold. cbn.
  rewrite bool_decide_eq_false_2 by exact Hsys. cbn.
  now rewrite <- app_assoc.
Qed.

(** X21. With [sys] bound and the standard modules there, a missing [yaml] (or
    a [subprocess] without [run]) is not reported with an exit code of
    its own: after the traceback the script looks up
    [ExitCodes.ERROR_MISSING_DEPENDENCIES], which does not exist, and ends
    with the uncaught [AttributeError]. *)
Theorem prelude_missing_dependency globals (importable : string -> bool)
    (traceback : string) s :
  "sys" ∈ globals ->
  importable "os" = true -> importable "sys" = true ->
  importable "shutil" = true -> importable "argparse" = true ->
  importable "traceback" = true ->
  importable "yaml" = false \/ importable "subprocess.run" = false ->
  prelude globals importable traceback s
  = (Raise (AttributeError "ERROR_MISSING_DEPENDENCIES"),
     State (world s)
       (trace s ++ [EPrint banner; EPrint (Lit "* Initializing Wheelman.");
                    EFlush; EPrint (Lit traceback)])
       (py_exe s)).
Proof.
  intros Hsys Hos Hsys' Hshutil Hargparse Htraceback Hmissing.
  unfold prelude, use_name, import_module. py_unfold. cbn.
  rewrite bool_decide_eq_true_2 by exact Hsys. cbn.
  rewrite Hos, Hsys', Hshutil, Hargparse, Htraceback. cbn.
  destruct Hmissing as [Hyaml | Hrun].
  - rewrite Hyaml. py_simpl. reflexivity.
  - destruct (importable "yaml"); rewrite ?Hrun; py_simpl; reflexivity.
Qed.

End Prelude.

(** * The further properties on the scripted build agent *)


Lemma include_files_are_copied_in_order_witness :
  exists s',
    copy_include_files (copy_agent "setup.cfg") (VDict license_and_readme)
      (initial 0%nat) = (Ok tt, s')
    /\ copies (trace s')
       = [(VStr "LICENSE", Fmt "%s/%s" [VStr "pkg"; VStr "LICENSE"]);
          (VStr "README.md", Fmt "%s/%s" [VStr "pkg"; VStr "README.md"]);
          (VStr "NOTICE", Fmt "%s/%s" [VStr "pkg"; VStr "NOTICE"])]
    /\ runs (trace s') = [].
Proof.
  apply (include_files_are_copied_in_order (copy_agent "setup.cfg")
           license_and_readme (VStr "pkg")
           [VStr "LICENSE"; VStr "README.md"; VStr "NOTICE"] (initial 0%nat));
    [reflexivity | reflexivity |].
  intros src dst w Hin.
  apply elem_of_cons in Hin as [-> | Hin]; [reflexivity |].
  apply elem_of_cons in Hin as [-> | Hin]; [reflexivity |].
  apply elem_of_cons in Hin as [-> | Hin]; [reflexivity |].
  now apply elem_of_nil in Hin.
Defined.

Lemma failed_copy_stops_the_script_witness :
  exists s',
    copy_include_files (copy_agent "README.md") (VDict license_and_readme)
      (initial 0%nat) = (Raise OSError, s')
    /\ copies (trace s')
       = [(VStr "LICENSE", Fmt "%s/%s" [VStr "pkg"; VStr "LICENSE"]);
          (VStr "README.md", Fmt "%s/%s" [VStr "pkg"; VStr "README.md"])].
Proof.
  apply (failed_copy_stops_the_script (copy_agent "README.md")
           license_and_readme (VStr "pkg") (VStr "README.md")
           [VStr "LICENSE"] [VStr "NOTICE"] (initial 0%nat));
    [reflexivity | reflexivity | | reflexivity].
  intros src dst w Hin.
  apply elem_of_cons in Hin as [-> | Hin]; [reflexivity |].
  now apply elem_of_nil in Hin.
Defined.

Lemma config_without_include_files_witness :
  wheelman empty_document "windows" ".wheelman.yml" (initial 0%nat)
  = (Raise TypeError,
     State 2%nat
       [EPrint (Fmt "* Loading config file from %s" [VStr ".wheelman.yml"]);
        EOpen ".wheelman.yml";
        EPrint banner; EPrint (Lit "* Prepping environment.");
        EPrint (Lit "* Deleting potential leftover dist folder.");
        ERmtree (Lit "dist")]
       None)
  /\ exit_status
       (wheelman empty_document "windows" ".wheelman.yml" (initial 0%nat)).1
     = 1.
Proof.
  exact (config_without_include_files empty_document "windows" ".wheelman.yml"
           "config" VNone (initial 0%nat) 1%nat eq_refl eq_refl I).
Defined.

Lemma cleanup_precedes_the_build_witness :
  exists tr,
    trace (build_target locked_egg_info (VDict one_target) (VDict py38_entries)
             (initial 0%nat)).2
    = [EPrint banner; EPrint (Lit "* Cleaning up egg-info."); EFlush;
       ERmtree (Fmt "%s.egg-info" [VStr "pkg"]);
       EPrint banner;
       EPrint (Fmt "* Preparing environment for %s now." [VStr "py38"]);
       EFlush;
       ERun ["py38"; "-m"; "pip"; "install"; "wheel"]]
      ++ tr.
Proof.
  exact (cleanup_precedes_the_build locked_egg_info one_target (VStr "pkg")
           py38_entries "py38" (initial 0%nat) eq_refl eq_refl).
Defined.

Lemma target_without_python_witness :
  build_target locked_egg_info (VDict one_target)
    (VDict [(VStr "wheel", VBool true)]) (initial 0%nat)
  = (Raise (KeyError "python"),
     State 1%nat
       [EPrint banner; EPrint (Lit "* Cleaning up egg-info."); EFlush;
        ERmtree (Fmt "%s.egg-info" [VStr "pkg"])]
       None).
Proof.
  exact (proj2 (target_without_python locked_egg_info (VDict one_target)
                  (VDict [(VStr "wheel", VBool true)]) (initial 0%nat)
                  eq_refl)
           one_target (VStr "pkg") eq_refl eq_refl).
Defined.

Lemma failed_helper_install_witness :
  (for_each [VDict py37_entries; VDict py38_entries]
     (build_target helper_fails (VDict two_targets)) (initial 0%nat)).1
  = Exit 30
  /\ runs (trace (for_each [VDict py37_entries; VDict py38_entries]
                    (build_target helper_fails (VDict two_targets))
                    (initial 0%nat)).2)
     = [["py37"; "-m"; "pip"; "install"; "wheel"]].
Proof.
  apply (failed_helper_install helper_fails (VDict two_targets) py37_entries
           "py37" [VDict py38_entries] (Some 1) (initial 0%nat));
    [reflexivity | intros w; vm_compute; reflexivity | discriminate].
Defined.

Lemma group_is_built_in_order_witness :
  exists s',
    for_each [VDict py37_entries; VDict py38_entries]
      (build_target untagged_commit (VDict two_targets)) (initial 0%nat)
    = (Ok tt, s')
    /\ runs (trace s')
       = [["py37"; "-m"; "pip"; "install"; "wheel"];
          ["py37"; "setup.py"; "bdist_wheel"];
          ["py38"; "-m"; "pip"; "install"; "wheel"];
          ["py38"; "setup.py"; "sdist"];
          ["py38"; "setup.py"; "bdist_wheel"]]
    /\ py_exe s' = Some (VStr "py38").
Proof.
  apply (group_is_built_in_order untagged_commit (VDict two_targets)
           built_group (initial 0%nat)).
  - repeat constructor.
  - intros cmd w. reflexivity.
Defined.

Lemma config_without_targets_witness :
  build_targets locked_egg_info (VDict [(VStr "name", VStr "pkg")]) "windows"
    (initial 0%nat)
  = (Raise (KeyError "targets"), initial 0%nat)
  /\ build_targets locked_egg_info
       (VDict [(VStr "name", VStr "pkg"); (VStr "targets", VNone)]) "windows"
       (initial 0%nat)
     = (Raise (AttributeError "get"), initial 0%nat).
Proof.
  split.
  - exact (config_without_targets locked_egg_info [(VStr "name", VStr "pkg")]
             "windows" (initial 0%nat) I).
  - exact (config_without_targets locked_egg_info
             [(VStr "name", VStr "pkg"); (VStr "targets", VNone)]
             "windows" (initial 0%nat) I).
Defined.

Lemma no_command_without_credentials_witness :
  world (publisher only_username (VDict one_target) (initial 0%nat)).2 = 0%nat
  /\ runs (trace (publisher only_username (VDict one_target)
                    (initial 0%nat)).2) = [].
Proof.
  apply (no_command_without_credentials only_username (VDict one_target)
           (initial 0%nat)).
  right. vm_compute. reflexivity.
Defined.

Lemma publisher_without_pypi_section_witness :
  publisher tagged_without_pypi (VDict [(VStr "name", VStr "pkg")])
    (initial 0%nat)
  = (Exit 52,
     State 0%nat
       [EPrint banner;
        EPrint (Lit "* Preparing to upload to twine.");
        EPrint (Lit "* Ensuring that twine is installed.");
        EFlush;
        EPrint (Lit "* ERROR: Missing pypi->target_url value in build.yml.")]
       None)
  /\ publisher untagged_commit (VDict [(VStr "name", VStr "pkg")])
       (initial 0%nat)
     = (Ok tt,
        State 0%nat
          [EPrint banner; EPrint (Lit "* INFO: Not uploading to pypi."); EFlush]
          None).
Proof.
  split.
  - refine (proj1 (publisher_without_pypi_section tagged_without_pypi
                     [(VStr "name", VStr "pkg")] "u" "p" (initial 0%nat)
                     eq_refl _ _) _); vm_compute; reflexivity.
  - refine (proj2 (publisher_without_pypi_section untagged_commit
                     [(VStr "name", VStr "pkg")] "u" "p" (initial 0%nat)
                     eq_refl _ _) _);
      [vm_compute; reflexivity | vm_compute; reflexivity |].
    vm_compute. discriminate.
Defined.

Lemma failed_twine_install_witness :
  publish twine_install_fails (VDict (pypi_entries false endpoint)) (VStr "u")
    (State 0%nat [] (Some (VStr "py38")))
  = (Exit 30,
     State 1%nat
       [EPrint banner;
        EPrint (Lit "* Preparing to upload to twine.");
        EPrint (Lit "* Ensuring that twine is installed.");
        EFlush;
        ERun ["py38"; "-m"; "pip"; "install"; "twine"];
        EPrint (Lit "* ERROR: Failed to ensure that twine is installed.")]
       (Some (VStr "py38"))).
Proof.
  apply (failed_twine_install twine_install_fails (pypi_entries false endpoint)
           (VStr endpoint) (VStr "u") "py38" (Some 1)
           (State 0%nat [] (Some (VStr "py38"))) 1%nat);
    [reflexivity | reflexivity | reflexivity | vm_compute; reflexivity
    | discriminate].
Defined.

Lemma unimportable_twine_witness :
  publish twine_missing (VDict (pypi_entries false endpoint)) (VStr "u")
    (State 0%nat [] (Some (VStr "py38")))
  = (Raise (AttributeError "ERROR_MISSING_DEPENDENCIES"),
     State 1%nat
       [EPrint banner;
        EPrint (Lit "* Preparing to upload to twine.");
        EPrint (Lit "* Ensuring that twine is installed.");
        EFlush;
        ERun ["py38"; "-m"; "pip"; "install"; "twine"];
        EImportTwine;
        EPrint (Lit "* ERROR: Couldn't import twine.")]
       (Some (VStr "py38"))).
Proof.
  apply (unimportable_twine twine_missing (pypi_entries false endpoint)
           (VStr endpoint) (VStr "u") "py38"
           (State 0%nat [] (Some (VStr "py38"))) 1%nat);
    reflexivity.
Defined.

Lemma upload_uses_the_running_interpreter_witness :
  exists s',
    publish release_build (VDict (pypi_entries true endpoint)) (VStr "u")
      (State 0%nat [] (Some (VStr "py38"))) = (Ok tt, s')
    /\ runs (trace s')
       = [["py38"; "-m"; "pip"; "install"; "twine"];
          ["python"; "twine/__main__.py"; "upload"; "--non-interactive";
           "--repository-url"; endpoint; "dist/*"]]
    /\ py_exe s' = Some (VStr "python").
Proof.
  apply (upload_uses_the_running_interpreter release_build
           (pypi_entries true endpoint) endpoint (VStr "u") "py38"
           "twine/__main__.py" (State 0%nat [] (Some (VStr "py38"))));
    [reflexivity | discriminate | reflexivity | intros cmd w; reflexivity
    | intros w; reflexivity].
Defined.

Lemma release_builds_then_uploads_witness :
  exists s' (py : string),
    wheelman release_build "windows" ".wheelman.yml" (initial 0%nat)
    = (Exit 0, s')
    /\ last_python built_group = Some (VStr py)
    /\ runs (trace s')
       = runs (trace (prepare release_build ".wheelman.yml" (initial 0%nat)).2)
         ++ concat (map (fun t => target_commands t.1 t.2) built_group)
         ++ [[py; "-m"; "pip"; "install"; "twine"];
             ["python"; "twine/__main__.py"; "upload"; "--non-interactive";
              "--repository-url"; endpoint; "dist/*"]].
Proof.
  apply (release_builds_then_uploads release_build "windows" ".wheelman.yml"
           two_targets
           [(VStr "windows", VList [VDict py37_entries; VDict py38_entries])]
           (pypi_entries true endpoint) built_group endpoint "u" "p"
           "twine/__main__.py" (initial 0%nat)
           (prepare release_build ".wheelman.yml" (initial 0%nat)).2).
  - vm_compute. reflexivity.
  - reflexivity.
  - reflexivity.
  - repeat constructor.
  - discriminate.
  - reflexivity.
  - reflexivity.
  - discriminate.
  - vm_compute. reflexivity.
  - vm_compute. reflexivity.
  - right. vm_compute. reflexivity.
  - intros cmd w. reflexivity.
  - intros w. reflexivity.
Defined.

Lemma prelude_needs_sys_and_args_witness :
  "sys" ∈ prebound /\ "args" ∈ prebound.
Proof.
  apply (prelude_needs_sys_and_args (W := nat) prebound everything_importable
           "Traceback" (initial 0%nat)
           (State 0%nat
              [EPrint banner; EPrint (Lit "* Initializing Wheelman."); EFlush]
              None)).
  vm_compute. reflexivity.
Defined.

Lemma prelude_stops_at_sys_witness :
  prelude fresh_interpreter everything_importable "Traceback" (initial 0%nat)
  = (Raise (NameError "sys"),
     State 0%nat [EPrint banner; EPrint (Lit "* Initializing Wheelman.")] None).
Proof.
  apply (prelude_stops_at_sys fresh_interpreter everything_importable
           "Traceback" (initial 0%nat)).
  unfold fresh_interpreter. apply not_elem_of_empty.
Defined.

Lemma prelude_missing_dependency_witness :
  prelude sys_only without_yaml "Traceback" (initial 0%nat)
  = (Raise (AttributeError "ERROR_MISSING_DEPENDENCIES"),
     State 0%nat
       [EPrint banner; EPrint (Lit "* Initializing Wheelman."); EFlush;
        EPrint (Lit "Traceback")]
       None).
Proof.
  apply (prelude_missing_dependency sys_only without_yaml "Traceback"
           (initial 0%nat));
    [apply elem_of_singleton_2; reflexivity | reflexivity..
    | left; reflexivity].
Defined.



(** C6, on the code as it is. A configuration file that is read and that
    the parser rejects with a marked error at line 3, column 5: when the
    error reaches the clause [except yaml.YAMLError, exc:] the name [exc]
    is looked up and is not bound. The script prints neither the parse
    failure nor a position and does not exit with
    [CONFIG_YAML_PARSING_ERROR = 12]: it ends with the uncaught
    [NameError], exit status 1. *)
Lemma malformed_config_ends_in_name_error :
  load_config broken_yaml ".wheelman.yml" (initial 0%nat)
  = (Raise (NameError "exc"),
     State 1%nat
       [EPrint (Fmt "* Loading config file from %s" [VStr ".wheelman.yml"]);
        EOpen ".wheelman.yml"]
       None)
  /\ exit_status (wheelman broken_yaml "windows" ".wheelman.yml" (initial 0%nat)).1
     = 1
  /\ ExitCodes !! "CONFIG_YAML_PARSING_ERROR" = Some 12.
Proof. repeat split; vm_compute; reflexivity. Qed.

(** C7, on the code as it is. A configuration file that cannot be opened:
    the [OSError] reaches the clause [except yaml.YAMLError, exc:] first,
    where the name [exc] is looked up and is not bound. The script does
    not print that it could not load the file and does not exit with
    [CONFIG_FILE_NOT_FOUND = 11]: it ends with the uncaught [NameError],
    exit status 1, the same end as for a file that does not parse. *)
Lemma unreadable_config_ends_in_name_error :
  load_config no_config_file ".wheelman.yml" (initial 0%nat)
  = (Raise (NameError "exc"),
     State 1%nat
       [EPrint (Fmt "* Loading config file from %s" [VStr ".wheelman.yml"]);
        EOpen ".wheelman.yml"]
       None)
  /\ exit_status
       (wheelman no_config_file "windows" ".wheelman.yml" (initial 0%nat)).1
     = 1
  /\ ExitCodes !! "CONFIG_FILE_NOT_FOUND" = Some 11
  /\ (wheelman no_config_file "windows" ".wheelman.yml" (initial 0%nat)).1
     = (wheelman broken_yaml "windows" ".wheelman.yml" (initial 0%nat)).1.
Proof. repeat split; vm_compute; reflexivity. Qed.
